(** * AppointmentWebApp: appointment scheduling core

    A shallow embedding of the backend of the appointment-booking
    application: the Mongoose schema of [models/Appointment.js] (validators,
    the pre-save conflict hook, [canBeCancelled], [getDisplayDetails]), the
    request handlers of [controllers/appointmentController.js], the user
    schema of [models/User.js], and the handlers of
    [controllers/userController.js] and [controllers/authController.js]
    behind the middleware of [middleware/authMiddleware.js].

    Conventions of the embedding.
    - The two collections are finite maps from document ids to documents
      (the [_id] of a document is its key in the map).
    - A JavaScript [Date] is the number of milliseconds it holds, read on
      the server's wall clock (a fixed-offset zone, so that [setHours],
      [setMinutes] and [setDate] are arithmetic on that number); an
      unparseable date is [InvalidDate].
    - A handler is evaluated at one instant [now]: every [new Date()] of one
      request reads the same clock value.
    - A handler returns the HTTP response together with the next state of
      the store; an exception caught by the handler's [catch] block is a
      value of [SaveError].
    - [save()] runs, in Mongoose's order, the timestamps plugin, the schema
      validators and then the schema's own [pre('save')] hook, and writes
      only afterwards. Validation is Mongoose's first pre-save hook and, by
      default, covers the paths of a loaded document and not only the
      modified ones; of the validators of this schema only the one of
      [date] reads the clock, so a stored document can fail no other of
      them later.
    - Text is ASCII: [length] and [trim] count and strip bytes, and
      [toLowerCase] maps the letters A to Z.
    - A number read from a query string is a JavaScript number: an integer
      rounded to a double, [NaN] or an infinity.
    - [bcrypt] is a parameter of the handlers that hash or compare a
      password; a token is the payload that [jsonwebtoken] signs. *)

From Stdlib Require Import ZArith Lia Ascii.
From stdpp Require Import gmap strings list fin_maps sorting.

Open Scope Z_scope.

(** ** Identifiers, roles, statuses *)

(** A Mongo [ObjectId]. *)
Abbreviation Id := N (only parsing).

Inductive Role := patient | doctor | admin.

Inductive Status := pending | confirmed | cancelled | completed.

#[global] Instance Role_eq_dec : EqDecision Role.
Proof. solve_decision. Defined.

#[global] Instance Status_eq_dec : EqDecision Status.
Proof. solve_decision. Defined.

(** [['pending', 'confirmed', 'cancelled', 'completed'].includes(status)]
    on the string of the request, together with the enum value it names. *)
Definition parseStatus (s : string) : option Status :=
  if String.eqb s "pending" then Some pending
  else if String.eqb s "confirmed" then Some confirmed
  else if String.eqb s "cancelled" then Some cancelled
  else if String.eqb s "completed" then Some completed
  else None.

Definition statusName (st : Status) : string :=
  match st with
  | pending => "pending"
  | confirmed => "confirmed"
  | cancelled => "cancelled"
  | completed => "completed"
  end.

(** ** Numbers

    A JavaScript number that holds an integer, is not a number, or is
    infinite. The sign of zero is not recorded: [-0] is falsy like [0],
    adds, subtracts and compares like it, and is written [0] in a JSON
    body, and a quotient by either zero is written [null] there. *)
Inductive JsNumber := Num (z : Z) | NaN | Infinity | NegInfinity.

(** ** Strings: the helpers of JavaScript the model calls *)

Module Js.

Definition isDigit (c : ascii) : bool :=
  (48 <=? nat_of_ascii c)%nat && (nat_of_ascii c <=? 57)%nat.

Definition inRange (lo hi c : ascii) : bool :=
  (nat_of_ascii lo <=? nat_of_ascii c)%nat
  && (nat_of_ascii c <=? nat_of_ascii hi)%nat.

Definition digitValue (c : ascii) : Z := Z.of_nat (nat_of_ascii c) - 48.

(** White space skipped by [parseInt] and removed by [trim] (the ASCII
    part of it: tab, line feed, vertical tab, form feed, carriage return,
    space). *)
Definition isSpace (c : ascii) : bool :=
  let n := nat_of_ascii c in
  ((9 <=? n)%nat && (n <=? 13)%nat) || (n =? 32)%nat.

Fixpoint dropSpaces (cs : list ascii) : list ascii :=
  match cs with
  | c :: r => if isSpace c then dropSpaces r else cs
  | [] => []
  end.

(** [String.prototype.trim]. *)
Definition trim (s : string) : string :=
  String.string_of_list_ascii
    (rev (dropSpaces (rev (dropSpaces (String.list_ascii_of_string s))))).

(** The longest prefix of decimal digits, read as a number; [None] when
    the prefix is empty. *)
Fixpoint readDigits (acc : option Z) (cs : list ascii) : option Z :=
  match cs with
  | c :: r =>
      if isDigit c
      then readDigits (Some (10 * default 0 acc + digitValue c)) r
      else acc
  | [] => acc
  end.

(** [parseInt(s)] on a part of a time string, in radix 10; [None] is
    [NaN]. The hexadecimal form ([0x...]) is left out here: no string that
    the schema's time pattern accepts has it. [parseIntNumber] below is the
    function in full. *)
Definition parseInt (s : string) : option Z :=
  match dropSpaces (String.list_ascii_of_string s) with
  | "-"%char :: r => Z.opp <$> readDigits None r
  | "+"%char :: r => readDigits None r
  | cs => readDigits None cs
  end.

(** The Number value of an integer: the nearest double (53 significant
    bits, ties to even), and an infinity from [2^1024] on. *)
Definition toDouble (n : Z) : JsNumber :=
  let m := Z.abs n in
  if m <? 2 ^ 53 then Num n
  else
    let e := Z.log2 m - 52 in
    let q := m / 2 ^ e in
    let r := m mod 2 ^ e in
    let q' :=
      if (2 ^ (e - 1) <? r) || ((r =? 2 ^ (e - 1)) && Z.odd q) then q + 1 else q in
    if 2 ^ 1024 <=? q' * 2 ^ e
    then (if n <? 0 then NegInfinity else Infinity)
    else Num (Z.sgn n * (q' * 2 ^ e)).

(** The value of a character as a digit of radix 10 or 16. *)
Definition digitOf (radix : Z) (c : ascii) : option Z :=
  if isDigit c then Some (digitValue c)
  else if (radix =? 16) && inRange "a" "f" c
  then Some (Z.of_nat (nat_of_ascii c) - 87)
  else if (radix =? 16) && inRange "A" "F" c
  then Some (Z.of_nat (nat_of_ascii c) - 55)
  else None.

(** The longest prefix of digits of the radix, read as a number; [None]
    when the prefix is empty. *)
Fixpoint readInRadix (radix : Z) (acc : option Z) (cs : list ascii) : option Z :=
  match cs with
  | c :: r =>
      match digitOf radix c with
      | Some d => readInRadix radix (Some (radix * default 0 acc + d)) r
      | None => acc
      end
  | [] => acc
  end.

(** After the sign: a leading [0x] or [0X] selects radix 16 and is
    dropped. *)
Definition readUnsigned (cs : list ascii) : option Z :=
  match cs with
  | "0"%char :: x :: r =>
      if Ascii.eqb x "x" || Ascii.eqb x "X" then readInRadix 16 None r
      else readInRadix 10 None cs
  | _ => readInRadix 10 None cs
  end.

(** [parseInt(s)] with its result as the number it is: leading white space
    is skipped, a sign is read, [0x] selects radix 16, the longest prefix of
    digits is read ([NaN] when there is none) and the integer is rounded to
    a double. *)
Definition parseIntNumber (s : string) : JsNumber :=
  match dropSpaces (String.list_ascii_of_string s) with
  | "-"%char :: r =>
      match readUnsigned r with Some n => toDouble (- n) | None => NaN end
  | "+"%char :: r =>
      match readUnsigned r with Some n => toDouble n | None => NaN end
  | cs =>
      match readUnsigned cs with Some n => toDouble n | None => NaN end
  end.

(** [a - 1], [a * b] and [a + n] on such numbers. *)
Definition sub1 (a : JsNumber) : JsNumber :=
  match a with Num x => toDouble (x - 1) | _ => a end.

Definition sign (a : JsNumber) : Z :=
  match a with
  | Num x => Z.sgn x
  | NaN => 0
  | Infinity => 1
  | NegInfinity => -1
  end.

Definition mul (a b : JsNumber) : JsNumber :=
  match a, b with
  | Num x, Num y => toDouble (x * y)
  | NaN, _ => NaN
  | _, NaN => NaN
  | _, _ =>
      if sign a * sign b =? 0 then NaN
      else if 0 <? sign a * sign b then Infinity else NegInfinity
  end.

Definition add (a : JsNumber) (n : Z) : JsNumber :=
  match a with Num x => toDouble (x + n) | _ => a end.

(** A number as [JSON.stringify] writes it into a response body: [null]
    for one that is not finite. *)
Definition toJSON (a : JsNumber) : option Z :=
  match a with
  | Num x => Some x
  | _ => None
  end.

(** [a < n] and [a > n] for an integer [n]. *)
Definition ltb (a : JsNumber) (n : Z) : bool :=
  match a with
  | Num x => x <? n
  | NegInfinity => true
  | _ => false
  end.

Definition gtb (a : JsNumber) (n : Z) : bool :=
  match a with
  | Num x => n <? x
  | Infinity => true
  | _ => false
  end.

(** [s.split(':')]. *)
Fixpoint splitColon (cur : list ascii) (cs : list ascii) : list string :=
  match cs with
  | [] => [String.string_of_list_ascii (rev cur)]
  | c :: r =>
      if Ascii.eqb c ":"
      then String.string_of_list_ascii (rev cur) :: splitColon [] r
      else splitColon (c :: cur) r
  end.

Definition split (s : string) : list string :=
  splitColon [] (String.list_ascii_of_string s).

(** [parseInt(parts[i])]; a missing part is [undefined], whose [parseInt]
    is [NaN]. *)
Definition parseIntAt (parts : list string) (i : nat) : option Z :=
  parts !! i ≫= parseInt.

(** [s.length]. *)
Definition length (s : string) : Z := Z.of_nat (String.length s).

End Js.

(** ** Dates *)

Inductive JsDate := Instant (ms : Z) | InvalidDate.

Module Date.

Definition msPerMinute : Z := 60 * 1000.
Definition msPerHour : Z := 60 * msPerMinute.
Definition msPerDay : Z := 24 * msPerHour.

(** [d.setHours(h)]: the hour of the day is replaced, minutes and below
    are kept; an [h] outside 0..23 carries into the day. *)
Definition setHours (d h : Z) : Z :=
  d - (d mod msPerDay) / msPerHour * msPerHour + h * msPerHour.

(** [d.setMinutes(m)]. *)
Definition setMinutes (d m : Z) : Z :=
  d - (d mod msPerHour) / msPerMinute * msPerMinute + m * msPerMinute.

(** [d.setDate(d.getDate() + 1)]. *)
Definition nextDay (d : Z) : Z := d + msPerDay.

End Date.

(** ** The user model ([models/User.js]) *)

Module User.

Record t := mk {
  name : string;
  email : string;
  password : string;
  role : Role;
  phone : option string;
  specialization : option string;
  isActive : bool;
  createdAt : Z;
  updatedAt : Z
}.

Definition setActive (u : t) (b : bool) (now : Z) : t :=
  mk (name u) (email u) (password u) (role u) (phone u) (specialization u)
     b (createdAt u) (if bool_decide (isActive u = b) then updatedAt u else now).

(** [getProfile()]. *)
Record Profile := mkProfile {
  p_id : Id;
  p_name : string;
  p_email : string;
  p_role : Role;
  p_phone : option string;
  p_specialization : option string;
  p_isActive : bool;
  p_createdAt : Z
}.

Definition getProfile (id : Id) (u : t) : Profile :=
  mkProfile id (name u) (email u) (role u) (phone u) (specialization u)
            (isActive u) (createdAt u).

End User.

(** The authenticated caller, [req.user]: the user document that
    [authenticateToken] loaded, with its id. *)
Record Caller := mkCaller { callerId : Id; callerRole : Role }.

(** ** The appointment model ([models/Appointment.js]) *)

Module Appointment.

Record t := mk {
  patientId : Id;
  doctorId : Id;
  date : Z;
  time : string;
  status : Status;
  notes : option string;
  symptoms : option string;
  duration : Z;
  isUrgent : bool;
  createdAt : Z;
  updatedAt : Z
}.

#[global] Instance eq_dec : EqDecision t.
Proof. solve_decision. Defined.

(** [appointment.status = st]. *)
Definition setStatus (a : t) (st : Status) : t :=
  mk (patientId a) (doctorId a) (date a) (time a) st (notes a) (symptoms a)
     (duration a) (isUrgent a) (createdAt a) (updatedAt a).

Definition setUpdatedAt (a : t) (now : Z) : t :=
  mk (patientId a) (doctorId a) (date a) (time a) (status a) (notes a)
     (symptoms a) (duration a) (isUrgent a) (createdAt a) now.

(** *** Schema validators *)

(** The pattern [/^([0-1]?[0-9]|2[0-3]):[0-5][0-9]$/]. *)
Definition timePattern (s : string) : bool :=
  match String.list_ascii_of_string s with
  | [h; c; m1; m2] =>
      Js.isDigit h && Ascii.eqb c ":" && Js.inRange "0" "5" m1 && Js.isDigit m2
  | [h1; h2; c; m1; m2] =>
      ((Js.inRange "0" "1" h1 && Js.isDigit h2)
       || (Ascii.eqb h1 "2" && Js.inRange "0" "3" h2))
      && Ascii.eqb c ":" && Js.inRange "0" "5" m1 && Js.isDigit m2
  | _ => false
  end.

(** [date.validate]: [value > new Date()]. *)
Definition validateDate (now : Z) (d : Z) : list string :=
  if d >? now then [] else ["Appointment date cannot be in the past"].

(** [time]: [required] rejects the empty string, [match] is skipped on
    it and applied to every other string. *)
Definition validateTime (s : string) : list string :=
  if String.eqb s String.EmptyString then ["Appointment time is required"]
  else if timePattern s then []
  else ["Please enter a valid time in HH:MM format"].

(** [maxlength] of an optional string path. *)
Definition validateMaxLength (limit : Z) (msg : string) (v : option string)
  : list string :=
  match v with
  | None => []
  | Some s => if Js.length s <=? limit then [] else [msg]
  end.

(** [duration]: [min] and [max]. *)
Definition validateDuration (d : Z) : list string :=
  if d <? 15 then ["Appointment duration must be at least 15 minutes"]
  else if 120 <? d then ["Appointment duration cannot exceed 120 minutes"]
  else [].

(** The messages of the [ValidationError] of a document, in the order of
    the schema's paths; the empty list when the document is valid.
    [validateRest] covers the paths other than [date]. *)
Definition validateRest (a : t) : list string :=
  validateTime (time a)
  ++ validateMaxLength 500 "Notes cannot exceed 500 characters" (notes a)
  ++ validateMaxLength 300 "Symptoms description cannot exceed 300 characters"
       (symptoms a)
  ++ validateDuration (duration a).

Definition validate (now : Z) (a : t) : list string :=
  validateDate now (date a) ++ validateRest a.

(** *** The pre-save hook: the conflict guard *)

Inductive SaveError :=
| ValidationError (errors : list string)
| SlotBooked
| DuplicateKey.

Definition errorMessage (e : SaveError) : string :=
  match e with
  | ValidationError _ => "Validation failed"
  | SlotBooked => "Appointment slot is already booked"
  | DuplicateKey => "E11000 duplicate key error"
  end.

(** The filter of the hook's [findOne]: same [doctorId], [date] and
    [time], [status] not in [['cancelled']], [_id] other than [this._id]. *)
Definition conflictsWith (id : Id) (a : t) (j : Id) (b : t) : bool :=
  bool_decide (doctorId b = doctorId a)
  && bool_decide (date b = date a)
  && String.eqb (time b) (time a)
  && negb (bool_decide (status b = cancelled))
  && negb (bool_decide (j = id)).

(** [Model.findOne(filter)]. *)
Definition findOne (P : Id → t → bool) (appts : gmap N t) : option (Id * t) :=
  List.find (λ kv, P kv.1 kv.2) (map_to_list appts).

(** [Model.find(filter)]. *)
Definition findAll (P : Id → t → bool) (appts : gmap N t) : list (Id * t) :=
  List.filter (λ kv, P kv.1 kv.2) (map_to_list appts).

Definition preSave (id : Id) (a : t) (appts : gmap N t) : option SaveError :=
  match findOne (conflictsWith id a) appts with
  | Some _ => Some SlotBooked
  | None => None
  end.

(** *** [save()] *)

(** The timestamps plugin on a document loaded from the store: [updatedAt]
    moves only when a path was modified. *)
Definition touch (now : Z) (orig a : t) : t :=
  if decide (orig = a) then a else setUpdatedAt a now.

(** [doc.save()]. [orig] is the document as it was loaded, [None] for a
    document made by [new Appointment(...)]; [written] is the document
    that reaches the store. The result is the error thrown, or the
    collection after the write. *)
Definition written (now : Z) (orig : option t) (a : t) : t :=
  match orig with Some o => touch now o a | None => a end.

Definition save (now : Z) (id : Id) (orig : option t) (a : t)
    (appts : gmap N t) : SaveError + gmap N t :=
  let a' := written now orig a in
  match validate now a' with
  | e :: es => inl (ValidationError (e :: es))
  | [] =>
      match preSave id a' appts with
      | Some e => inl e
      | None =>
          match orig, appts !! id with
          | None, Some _ => inl DuplicateKey
          | _, _ => inr (<[id := a']> appts)
          end
      end
  end.

(** *** Instance methods *)

(** [appointmentDateTime] of [canBeCancelled]: the [date] with its hours
    and minutes replaced by those of [time]; [None] is an invalid date. *)
Definition appointmentDateTime (a : t) : option Z :=
  h ← Js.parseIntAt (Js.split (time a)) 0;
  m ← Js.parseIntAt (Js.split (time a)) 1;
  Some (Date.setMinutes (Date.setHours (date a) h) m).

Definition twoHours : Z := 2 * 60 * 60 * 1000.

Definition canBeCancelled (now : Z) (a : t) : bool :=
  match appointmentDateTime a with
  | Some start => start >? now + twoHours
  | None => false
  end.

Record DisplayDetails := mkDetails {
  d_id : Id;
  d_date : Z;
  d_time : string;
  d_status : Status;
  d_notes : option string;
  d_symptoms : option string;
  d_duration : Z;
  d_isUrgent : bool;
  d_createdAt : Z;
  d_canBeCancelled : bool
}.

Definition getDisplayDetails (now : Z) (id : Id) (a : t) : DisplayDetails :=
  mkDetails id (date a) (time a) (status a) (notes a) (symptoms a)
            (duration a) (isUrgent a) (createdAt a) (canBeCancelled now a).

End Appointment.

(** ** The store and the responses *)

Record State := mkState {
  users : gmap N User.t;
  appointments : gmap N Appointment.t
}.

Definition withAppointments (s : State) (appts : gmap N Appointment.t) : State :=
  mkState (users s) appts.

Definition withUsers (s : State) (us : gmap N User.t) : State :=
  mkState us (appointments s).

(** A populated reference: the selected fields of the user a [patientId] or
    [doctorId] points to. *)
Record Populated := mkPopulated {
  ref_id : Id;
  ref_name : string;
  ref_email : string;
  ref_phone : option string;
  ref_specialization : option string
}.

(** [doc.populate(path, 'name email phone')] and
    [doc.populate(path, 'name email phone specialization')]; [None] when the
    reference does not resolve. *)
Definition populate (us : gmap N User.t) (withSpecialization : bool) (id : Id)
  : option Populated :=
  u ← us !! id;
  Some (mkPopulated id (User.name u) (User.email u) (User.phone u)
          (if withSpecialization then User.specialization u else None)).

(** [{...apt.getDisplayDetails(), patient: apt.patientId, doctor: apt.doctorId}]
    after the two [populate] calls. *)
Record AppointmentView := mkView {
  details : Appointment.DisplayDetails;
  v_patient : option Populated;
  v_doctor : option Populated
}.

Definition view (now : Z) (us : gmap N User.t) (id : Id) (a : Appointment.t)
  : AppointmentView :=
  mkView (Appointment.getDisplayDetails now id a)
         (populate us false (Appointment.patientId a))
         (populate us true (Appointment.doctorId a)).

(** The [pagination] object as the JSON body carries it. *)
Record Pagination := mkPagination {
  currentPage : option Z;
  totalPages : option Z;
  totalAppointments : Z;
  hasNextPage : bool;
  hasPrevPage : bool
}.

Inductive Payload :=
| NoData
| AppointmentData (v : AppointmentView)
| AppointmentList (vs : list AppointmentView) (pg : Pagination)
| UserData (p : User.Profile).

(** [res.status(code).json({status, message, errors, data})]. *)
Record Response := mkResponse {
  code : Z;
  success : bool;
  message : option string;
  errors : list string;
  data : Payload
}.

Definition fail (c : Z) (msg : string) : Response :=
  mkResponse c false (Some msg) [] NoData.

Definition ok (c : Z) (msg : option string) (d : Payload) : Response :=
  mkResponse c true msg [] d.

(** ** Middleware ([middleware/authMiddleware.js]) *)

(** [authenticateToken], after the token has been verified and decoded to
    the user id [uid]: the user is read from the store and must be active. *)
Definition authenticateToken (uid : Id) (s : State) : Response + Caller :=
  match users s !! uid with
  | None => inl (fail 401 "User not found")
  | Some u =>
      if negb (User.isActive u) then inl (fail 401 "User account is deactivated")
      else inr (mkCaller uid (User.role u))
  end.

(** [authorizeRole(role)]. *)
Definition authorizeRole (required : Role) (caller : Caller) : option Response :=
  if decide (callerRole caller = required) then None
  else Some (fail 403 "Insufficient permissions").

(** ** [controllers/appointmentController.js] *)

Record CreateBody := mkCreateBody {
  b_doctorId : option Id;
  b_date : option JsDate;
  b_time : option string;
  b_notes : option string;
  b_symptoms : option string;
  b_duration : option Z;
  b_isUrgent : option bool
}.

(** [!time] on a string of the body: absent or empty. *)
Definition truthyString (v : option string) : option string :=
  match v with
  | Some s => if String.eqb s String.EmptyString then None else Some s
  | None => None
  end.

(** [duration || 30]: an absent duration and the number 0 both give 30. *)
Definition durationOrDefault (v : option Z) : Z :=
  match v with
  | Some d => if d =? 0 then 30 else d
  | None => 30
  end.

(** [User.findOne({ _id: doctorId, role: 'doctor', isActive: true })]. *)
Definition findActiveDoctor (us : gmap N User.t) (id : Id) : option User.t :=
  match us !! id with
  | Some u =>
      if bool_decide (User.role u = doctor) && User.isActive u then Some u else None
  | None => None
  end.

(** [new Appointment({...})] of [createAppointment], for a date that casts;
    [status] takes its default, the string setters trim, and the timestamps
    are those the first save writes. *)
Definition newAppointment (now : Z) (patientId doctorId : Id) (date : Z)
    (time : string) (body : CreateBody) : Appointment.t :=
  Appointment.mk patientId doctorId date time pending
    (Js.trim <$> b_notes body) (Js.trim <$> b_symptoms body)
    (durationOrDefault (b_duration body))
    (default false (b_isUrgent body)) now now.

(** A string between double quotes. *)
Definition quoted (str : string) : string :=
  String (Ascii.ascii_of_nat 34)
    (String.append str (String (Ascii.ascii_of_nat 34) String.EmptyString)).

(** The message of the [CastError] that Mongoose records for an invalid
    date at the path [date]. *)
Definition castDateFailed : string :=
  String.append "Cast to date failed for value "
    (String.append (quoted "Invalid Date")
       (String.append " (type Date) at path " (quoted "date"))).

(** The [catch] block of [createAppointment]. *)
Definition createFailed (e : Appointment.SaveError) : Response :=
  match e with
  | Appointment.SlotBooked => fail 400 (Appointment.errorMessage e)
  | Appointment.ValidationError errs =>
      mkResponse 400 false (Some "Validation failed") errs NoData
  | Appointment.DuplicateKey => fail 500 "Failed to create appointment"
  end.

(** [createAppointment]. [oid] is the [ObjectId] that
    [new Appointment(...)] generates. *)
Definition createAppointment (now : Z) (oid : Id) (caller : Caller)
    (body : CreateBody) (s : State) : Response * State :=
  match b_doctorId body, b_date body, truthyString (b_time body) with
  | Some doctorId, Some date, Some time =>
      match findActiveDoctor (users s) doctorId with
      | None => (fail 404 "Doctor not found or inactive", s)
      | Some _ =>
          match date with
          | Instant d =>
              if d <=? now
              then (fail 400 "Appointment date cannot be in the past", s)
              else
                let a := newAppointment now (callerId caller) doctorId d time body in
                match Appointment.save now oid None a (appointments s) with
                | inl e => (createFailed e, s)
                | inr appts =>
                    (ok 201 (Some "Appointment created successfully")
                        (AppointmentData (view now (users s) oid a)),
                     withAppointments s appts)
                end
          | InvalidDate =>
              (* an invalid date is not [<=] any date; the document then
                 fails to cast its [date] path at validation *)
              let a := newAppointment now (callerId caller) doctorId 0 time body in
              (createFailed
                 (Appointment.ValidationError
                    (castDateFailed :: Appointment.validateRest a)), s)
          end
      end
  | _, _, _ => (fail 400 "Doctor ID, date, and time are required", s)
  end.

(** The role part of the filters: [filter.patientId = userId] for a
    patient, [filter.doctorId = userId] for a doctor, nothing for an admin. *)
Definition inScope (caller : Caller) (a : Appointment.t) : bool :=
  match callerRole caller with
  | patient => bool_decide (Appointment.patientId a = callerId caller)
  | doctor => bool_decide (Appointment.doctorId a = callerId caller)
  | admin => true
  end.

Record ListQuery := mkListQuery {
  q_status : option string;
  q_date : option JsDate;
  q_limit : option string;
  q_page : option string
}.

(** [filter.status]: set only for one of the four enum values. *)
Definition statusFilter (q : ListQuery) (a : Appointment.t) : bool :=
  match q_status q ≫= parseStatus with
  | Some st => bool_decide (Appointment.status a = st)
  | None => true
  end.

(** [filter.date = { $gte: startDate, $lt: endDate }]. *)
Definition dateFilter (start : option Z) (a : Appointment.t) : bool :=
  match start with
  | Some d => (d <=? Appointment.date a) && (Appointment.date a <? Date.nextDay d)
  | None => true
  end.

Definition listFilter (caller : Caller) (q : ListQuery) (start : option Z)
    (_ : Id) (a : Appointment.t) : bool :=
  inScope caller a && statusFilter q a && dateFilter start a.

(** [.sort({ date: 1, time: 1 })]. *)
Definition sortLeb (x y : Id * Appointment.t) : bool :=
  (Appointment.date x.2 <? Appointment.date y.2)
  || ((Appointment.date x.2 =? Appointment.date y.2)
      && String.leb (Appointment.time x.2) (Appointment.time y.2)).

Definition sortByDateTime (l : list (Id * Appointment.t)) : list (Id * Appointment.t) :=
  merge_sort (λ x y, Is_true (sortLeb x y)) l.

(** [parseInt(limit)] and [parseInt(page)] with the defaults 20 and 1 of
    the destructuring. *)
Definition parsedOr (dflt : Z) (v : option string) : JsNumber :=
  match v with
  | Some str => Js.parseIntNumber str
  | None => Num dflt
  end.

(** [x || dflt] on a number: [NaN] and 0 are falsy. *)
Definition numberOr (dflt : Z) (v : JsNumber) : JsNumber :=
  match v with
  | Num x => if x =? 0 then Num dflt else v
  | NaN => Num dflt
  | _ => v
  end.

(** [Math.ceil(total / limit)] for a count [total] from 0 to [2^53]. *)
Definition totalPagesOf (total : Z) (limit : JsNumber) : JsNumber :=
  match limit with
  | NaN => NaN
  | Num l =>
      if l =? 0 then (if total =? 0 then NaN else Infinity)
      else Num (- ((- total) / l))
  | _ => Num 0
  end.

(** [skip = (parseInt(page) - 1) * parseInt(limit)]. *)
Definition skipOf (page limit : JsNumber) : JsNumber :=
  Js.mul (Js.sub1 page) limit.

(** [.limit(n)] and [.skip(k)] of a query on the documents it found: the
    documents after the first [k], and of these the first [n]. *)
Module Query.

Fixpoint skip {A} (k : Z) (docs : list A) : list A :=
  match docs with
  | [] => []
  | _ :: rest => if k <=? 0 then docs else skip (k - 1) rest
  end.

Fixpoint limit {A} (n : Z) (docs : list A) : list A :=
  match docs with
  | [] => []
  | doc :: rest => if n <=? 0 then [] else doc :: limit (n - 1) rest
  end.

End Query.

(** [getAppointmentsWithUsers(filter, { limit, skip })]: the matching
    documents, sorted, after [skip] and [limit]. The store refuses a
    negative [skip] and a [limit] or [skip] that is not finite, and the
    method throws; it reads a negative limit as its absolute value. *)
Definition getAppointmentsWithUsers (P : Id → Appointment.t → bool)
    (limit skip : JsNumber) (appts : gmap N Appointment.t)
  : option (list (Id * Appointment.t)) :=
  match numberOr 50 limit, numberOr 0 skip with
  | Num l, Num k =>
      if k <? 0 then None
      else Some (Query.limit (Z.abs l)
                   (Query.skip k (sortByDateTime (Appointment.findAll P appts))))
  | _, _ => None
  end.

(** [getAppointments]. *)
Definition getAppointments (now : Z) (caller : Caller) (q : ListQuery)
    (s : State) : Response * State :=
  match q_date q with
  | Some InvalidDate => (fail 500 "Failed to fetch appointments", s)
  | qd =>
      let start := match qd with Some (Instant d) => Some d | _ => None end in
      let P := listFilter caller q start in
      let limit := parsedOr 20 (q_limit q) in
      let page := parsedOr 1 (q_page q) in
      let skip := skipOf page limit in
      match getAppointmentsWithUsers P limit skip (appointments s) with
      | None => (fail 500 "Failed to fetch appointments", s)
      | Some found =>
          let total := Z.of_nat (length (Appointment.findAll P (appointments s))) in
          (ok 200 None
              (AppointmentList
                 ((λ kv, view now (users s) kv.1 kv.2) <$> found)
                 (mkPagination (Js.toJSON page)
                    (Js.toJSON (totalPagesOf total limit)) total
                    (Js.ltb (Js.add skip (Z.of_nat (length found))) total)
                    (Js.gtb page 1))),
           s)
      end
  end.

(** [getAppointmentById]: the role filter is part of the query. *)
Definition getAppointmentById (now : Z) (caller : Caller) (id : Id) (s : State)
  : Response * State :=
  match Appointment.findOne
          (λ j a, bool_decide (j = id) && inScope caller a) (appointments s) with
  | None => (fail 404 "Appointment not found", s)
  | Some (j, a) => (ok 200 None (AppointmentData (view now (users s) j a)), s)
  end.

(** The two permission checks shared by [updateAppointmentStatus] and
    [cancelAppointment]. *)
Definition accessDenied (caller : Caller) (a : Appointment.t) : bool :=
  (bool_decide (callerRole caller = patient)
   && negb (bool_decide (Appointment.patientId a = callerId caller)))
  || (bool_decide (callerRole caller = doctor)
      && negb (bool_decide (Appointment.doctorId a = callerId caller))).

(** [updateAppointmentStatus]; [status] is [req.body.status]. Every error
    thrown by [save()] lands in the [catch] block. *)
Definition updateAppointmentStatus (now : Z) (caller : Caller) (id : Id)
    (status : string) (s : State) : Response * State :=
  match parseStatus status with
  | None => (fail 400 "Invalid status value", s)
  | Some st =>
      match appointments s !! id with
      | None => (fail 404 "Appointment not found", s)
      | Some a =>
          if accessDenied caller a then (fail 403 "Access denied", s)
          else
            let a' := Appointment.setStatus a st in
            match Appointment.save now id (Some a) a' (appointments s) with
            | inl _ => (fail 500 "Failed to update appointment status", s)
            | inr appts =>
                (ok 200 (Some "Appointment status updated successfully")
                    (AppointmentData
                       (view now (users s) id (Appointment.touch now a a'))),
                 withAppointments s appts)
            end
      end
  end.

(** [cancelAppointment]. *)
Definition cancelAppointment (now : Z) (caller : Caller) (id : Id) (s : State)
  : Response * State :=
  match appointments s !! id with
  | None => (fail 404 "Appointment not found", s)
  | Some a =>
      if accessDenied caller a then (fail 403 "Access denied", s)
      else if negb (Appointment.canBeCancelled now a)
      then (fail 400 "Appointment cannot be cancelled (less than 2 hours away)", s)
      else
        let a' := Appointment.setStatus a cancelled in
        match Appointment.save now id (Some a) a' (appointments s) with
        | inl _ => (fail 500 "Failed to cancel appointment", s)
        | inr appts =>
            (ok 200 (Some "Appointment cancelled successfully") NoData,
             withAppointments s appts)
        end
  end.

(** ** [controllers/userController.js] *)

(** [updateUserStatus]. The user document is read back and written with one
    flag changed; the schema's validators accept it as they did when it was
    stored, and the password hook does nothing on an unmodified password. *)
Definition updateUserStatus (now : Z) (caller : Caller) (userId : Id)
    (isActive : bool) (s : State) : Response * State :=
  if negb (bool_decide (callerRole caller = admin)) then (fail 403 "Access denied", s)
  else
    match users s !! userId with
    | None => (fail 404 "User not found", s)
    | Some u =>
        if bool_decide (userId = callerId caller)
        then (fail 400 "Cannot deactivate your own account", s)
        else
          let u' := User.setActive u isActive now in
          (ok 200
              (Some (if isActive then "User activated successfully"
                     else "User deactivated successfully"))
              (UserData (User.getProfile userId u')),
           withUsers s (<[userId := u']> (users s)))
    end.

(** ** Routes ([routes/appointmentRoutes.js], [routes/userRoutes.js]) *)

Inductive Request :=
| PostAppointment (oid : Id) (body : CreateBody)
| GetAppointments (q : ListQuery)
| GetAppointment (id : Id)
| PatchAppointmentStatus (id : Id) (status : string)
| PostAppointmentCancel (id : Id)
| PatchUserStatus (userId : Id) (isActive : bool).

(** One request of the bearer of a token for user [uid], served at [now]. *)
Definition serve (now : Z) (uid : Id) (req : Request) (s : State)
  : Response * State :=
  match authenticateToken uid s with
  | inl r => (r, s)
  | inr caller =>
      match req with
      | PostAppointment oid body =>
          match authorizeRole patient caller with
          | Some r => (r, s)
          | None => createAppointment now oid caller body s
          end
      | GetAppointments q => getAppointments now caller q s
      | GetAppointment id => getAppointmentById now caller id s
      | PatchAppointmentStatus id status =>
          updateAppointmentStatus now caller id status s
      | PostAppointmentCancel id => cancelAppointment now caller id s
      | PatchUserStatus userId isActive =>
          match authorizeRole admin caller with
          | Some r => (r, s)
          | None => updateUserStatus now caller userId isActive s
          end
      end
  end.

(** A sequential execution: requests served one after the other. *)
Fixpoint run (trace : list (Z * Id * Request)) (s : State) : State :=
  match trace with
  | [] => s
  | (now, uid, req) :: rest => run rest (serve now uid req s).2
  end.

(** ** Invariants of the store *)

(** Two documents occupy the same slot. *)
Definition sameSlot (a b : Appointment.t) : Prop :=
  Appointment.doctorId a = Appointment.doctorId b
  ∧ Appointment.date a = Appointment.date b
  ∧ Appointment.time a = Appointment.time b.

(** No two non-cancelled appointments share a (doctor, date, time). *)
Definition noDoubleBooking (appts : gmap N Appointment.t) : Prop :=
  ∀ i j a b,
    appts !! i = Some a → appts !! j = Some b → i ≠ j →
    Appointment.status a ≠ cancelled → Appointment.status b ≠ cancelled →
    ¬ sameSlot a b.

(** Some other live appointment holds the slot of document [id]. *)
Definition slotTaken (id : Id) (a : Appointment.t)
    (appts : gmap N Appointment.t) : Prop :=
  ∃ j b, appts !! j = Some b ∧ j ≠ id ∧ sameSlot b a
         ∧ Appointment.status b ≠ cancelled.

(** The caller's role scope as the specification words it: a patient's own
    appointments, a doctor's own appointments, every appointment for an
    admin. *)
Definition visibleTo (caller : Caller) (a : Appointment.t) : Prop :=
  match callerRole caller with
  | patient => Appointment.patientId a = callerId caller
  | doctor => Appointment.doctorId a = callerId caller
  | admin => True
  end.

(** The start of the day a listing is asked for, when the query names a
    date: the [startDate] of [filter.date]. *)
Definition listStart (q : ListQuery) : option Z :=
  match q_date q with Some (Instant d) => Some d | _ => None end.

(** The fields a status transition has to leave alone. *)
Definition sameBooking (a a' : Appointment.t) : Prop :=
  Appointment.patientId a' = Appointment.patientId a
  ∧ Appointment.doctorId a' = Appointment.doctorId a
  ∧ Appointment.date a' = Appointment.date a
  ∧ Appointment.time a' = Appointment.time a
  ∧ Appointment.duration a' = Appointment.duration a
  ∧ Appointment.notes a' = Appointment.notes a
  ∧ Appointment.symptoms a' = Appointment.symptoms a
  ∧ Appointment.isUrgent a' = Appointment.isUrgent a
  ∧ Appointment.createdAt a' = Appointment.createdAt a.

(** A date that carries no time of day on the server's clock. *)
Definition calendarDate (d : Z) : Prop := d mod Date.msPerDay = 0.

(** ** Further notions the properties below are stated with *)


(** Every appointment of the store was booked for a user whose role is
    patient. *)
Definition bookedByPatients (s : State) : Prop :=
  ∀ id a, appointments s !! id = Some a →
          ∃ u, users s !! Appointment.patientId a = Some u
               ∧ User.role u = patient.

(** The documents that match the filter of [getAppointments]. *)
Definition matching (caller : Caller) (q : ListQuery) (s : State)
  : list (Id * Appointment.t) :=
  Appointment.findAll (listFilter caller q (listStart q)) (appointments s).

(** [res.status(code).json({status, message, errors, data})] of the
    handlers of users and accounts. *)
Record Reply (A : Type) := mkReply {
  r_code : Z;
  r_success : bool;
  r_message : option string;
  r_errors : list string;
  r_data : option A
}.
Arguments mkReply {A}.
Arguments r_code {A}.
Arguments r_success {A}.
Arguments r_message {A}.
Arguments r_errors {A}.
Arguments r_data {A}.

Definition refuse {A} (c : Z) (msg : string) : Reply A :=
  mkReply c false (Some msg) [] None.

Definition invalid {A} (errs : list string) : Reply A :=
  mkReply 400 false (Some "Validation failed") errs None.

Definition answer {A} (c : Z) (msg : option string) (d : A) : Reply A :=
  mkReply c true msg [] (Some d).

(** [getAvailableDoctors]:
    [User.find({ role: 'doctor', isActive: true })] with the selected
    fields. *)
Definition getAvailableDoctors (s : State) : Reply (list Populated) :=
  answer 200 None
    ((λ kv, mkPopulated kv.1 (User.name kv.2) (User.email kv.2) (User.phone kv.2)
              (User.specialization kv.2))
     <$> List.filter (λ kv, bool_decide (User.role kv.2 = doctor) && User.isActive kv.2)
           (map_to_list (users s))).

(** ** Sample data used by the concrete checks *)

Module Sample.

Definition drA : User.t :=
  User.mk "Dr. A" "dra@clinic.test" "hash" doctor None (Some "General") true 0 0.
Definition p1 : User.t :=
  User.mk "P1" "p1@mail.test" "hash" patient None None true 0 0.
Definition p2 : User.t :=
  User.mk "P2" "p2@mail.test" "hash" patient None None true 0 0.
Definition root : User.t :=
  User.mk "Root" "root@clinic.test" "hash" admin None None true 0 0.

(** Ids: 1 is Dr. A, 2 is P1, 3 is P2, 4 is the admin. *)
Definition people : gmap N User.t :=
  <[1%N := drA]> (<[2%N := p1]> (<[3%N := p2]> (<[4%N := root]> ∅))).

Definition asP1 : Caller := mkCaller 2 patient.
Definition asP2 : Caller := mkCaller 3 patient.
Definition asDrA : Caller := mkCaller 1 doctor.
Definition asRoot : Caller := mkCaller 4 admin.

(** Day 20000 of the clock, at midnight. *)
Definition day : Z := 20000 * Date.msPerDay.

(** The instant of the requests that book: ten days earlier. *)
Definition early : Z := day - 10 * Date.msPerDay.

(** One hour before a 10:00 appointment of [day]. *)
Definition nineOClock : Z := day - Date.msPerDay + 9 * Date.msPerHour.

Definition booking (time : string) (duration : option Z) : CreateBody :=
  mkCreateBody (Some 1%N) (Some (Instant day)) (Some time) None None duration None.

(** P1's appointment with Dr. A at 10:00, as [createAppointment] stores it. *)
Definition atTen : Appointment.t :=
  Appointment.mk 2 1 day "10:00" pending None None 30 false early early.

(** The same slot booked by P2 after P1 has cancelled. *)
Definition atTenP2 : Appointment.t :=
  Appointment.mk 3 1 day "10:00" pending None None 30 false early early.

Definition noBookings : State := mkState people ∅.
Definition oneBooking : State := mkState people {[10%N := atTen]}.
Definition oneCompleted : State :=
  mkState people {[10%N := Appointment.setStatus atTen completed]}.
Definition rebooked : State :=
  mkState people
    (<[10%N := Appointment.setStatus atTen cancelled]> {[11%N := atTenP2]}).

(** An appointment that starts at 10:00 of the day before [day], and the
    store holding it. *)
Definition soon : Appointment.t :=
  Appointment.mk 2 1 (day - Date.msPerDay) "10:00" confirmed None None 30 false
    early early.
Definition oneSoon : State := mkState people {[12%N := soon]}.

(** Noon of [day], 23:00 of [day], and a request for the date 23:00 of
    [day] that carries the time string "01:00". *)
Definition noon : Z := day + 12 * Date.msPerHour.
Definition lateEvening : Z := day + 23 * Date.msPerHour.
Definition lateEveningAtOne : CreateBody :=
  mkCreateBody (Some 1%N) (Some (Instant lateEvening)) (Some "01:00")
    None None None None.

End Sample.

(** ** Regular expressions

    The anchored patterns of the schemas ([/^...$/]) are read as regular
    expressions over characters and matched by derivatives. *)

Module Re.

Inductive t :=
| Void
| Eps
| Chr (p : ascii → bool)
| Cat (r1 r2 : t)
| Alt (r1 r2 : t)
| Star (r : t).

Fixpoint nullable (r : t) : bool :=
  match r with
  | Void => false
  | Eps => true
  | Chr _ => false
  | Cat r1 r2 => nullable r1 && nullable r2
  | Alt r1 r2 => nullable r1 || nullable r2
  | Star _ => true
  end.

(** Concatenation and alternation that drop the branches no string can
    take. *)
Definition cat (r1 r2 : t) : t :=
  match r1, r2 with
  | Void, _ => Void
  | _, Void => Void
  | Eps, _ => r2
  | _, _ => Cat r1 r2
  end.

Definition alt (r1 r2 : t) : t :=
  match r1, r2 with
  | Void, _ => r2
  | _, Void => r1
  | _, _ => Alt r1 r2
  end.

(** The strings [w] such that [c :: w] matches [r]. *)
Fixpoint deriv (c : ascii) (r : t) : t :=
  match r with
  | Void => Void
  | Eps => Void
  | Chr p => if p c then Eps else Void
  | Cat r1 r2 =>
      if nullable r1 then alt (cat (deriv c r1) r2) (deriv c r2)
      else cat (deriv c r1) r2
  | Alt r1 r2 => alt (deriv c r1) (deriv c r2)
  | Star r1 => cat (deriv c r1) (Star r1)
  end.

Fixpoint matches (r : t) (cs : list ascii) : bool :=
  match cs with
  | [] => nullable r
  | c :: rest => matches (deriv c r) rest
  end.

(** [/^r$/.test(s)]. *)
Definition test (r : t) (s : string) : bool :=
  matches r (String.list_ascii_of_string s).

(** [r+], [r?], the character [c], a character of a list ([[...]]). *)
Definition plus (r : t) : t := Cat r (Star r).
Definition opt (r : t) : t := Alt Eps r.
Definition char (c : ascii) : t := Chr (Ascii.eqb c).
Definition oneOf (cs : list ascii) : t := Chr (λ c, existsb (Ascii.eqb c) cs).

(** [\w]: a letter, a digit or the underscore. *)
Definition isWord (c : ascii) : bool :=
  Js.inRange "a" "z" c || Js.inRange "A" "Z" c || Js.isDigit c || Ascii.eqb c "_".
Definition word : t := Chr isWord.

End Re.

(** [String.prototype.toLowerCase] (text is ASCII). *)
Definition toLowerChar (c : ascii) : ascii :=
  if Js.inRange "A" "Z" c then ascii_of_nat (nat_of_ascii c + 32) else c.

Fixpoint toLowerCase (s : string) : string :=
  match s with
  | String.EmptyString => String.EmptyString
  | String.String c rest => String.String (toLowerChar c) (toLowerCase rest)
  end.

(** ** The user schema ([models/User.js]): setters and validators *)

Module UserSchema.

(** [/^\w+([.-]?\w+)*@\w+([.-]?\w+)*(\.\w{2,3})+$/]. *)
Definition emailPattern : Re.t :=
  let words := Re.plus Re.word in
  let more := Re.Star (Re.Cat (Re.opt (Re.oneOf ["."; "-"]%char)) words) in
  Re.Cat words
    (Re.Cat more
       (Re.Cat (Re.char "@")
          (Re.Cat words
             (Re.Cat more
                (Re.plus
                   (Re.Cat (Re.char ".")
                      (Re.Cat Re.word (Re.Cat Re.word (Re.opt Re.word))))))))).

(** A string is missing for [required] when it is absent or empty. *)
Definition present (v : option string) : option string :=
  match v with
  | Some s => if String.eqb s String.EmptyString then None else Some s
  | None => None
  end.

(** [name]: the value after the [trim] setter. *)
Definition validateName (v : option string) : list string :=
  match present v with
  | None => ["Name is required"]
  | Some s => if Js.length s <=? 50 then [] else ["Name cannot exceed 50 characters"]
  end.

(** [email]: the value after the [lowercase] and [trim] setters. *)
Definition validateEmail (v : option string) : list string :=
  match present v with
  | None => ["Email is required"]
  | Some s =>
      if Re.test emailPattern s then [] else ["Please enter a valid email address"]
  end.

(** [password], before the pre-save hook hashes it. *)
Definition validatePassword (v : option string) : list string :=
  match present v with
  | None => ["Password is required"]
  | Some s =>
      if 6 <=? Js.length s then []
      else ["Password must be at least 6 characters long"]
  end.

Definition validatePhone (v : option string) : list string :=
  Appointment.validateMaxLength 15 "Phone number cannot exceed 15 characters" v.

Definition validateSpecialization (v : option string) : list string :=
  Appointment.validateMaxLength 100 "Specialization cannot exceed 100 characters" v.

(** The setters of [email], [lowercase] and [trim]: Mongoose applies them
    to a value set on a document and to a value a query compares the path
    with. *)
Definition castEmail (v : string) : string := Js.trim (toLowerCase v).

(** The [enum] of [role]. *)
Definition parseRole (s : string) : option Role :=
  if String.eqb s "patient" then Some patient
  else if String.eqb s "doctor" then Some doctor
  else if String.eqb s "admin" then Some admin
  else None.

(** The validators of a document read from the store without its
    password ([select: false]): every selected path is validated. *)
Definition validateLoaded (u : User.t) : list string :=
  validateName (Some (User.name u))
  ++ validateEmail (Some (User.email u))
  ++ validatePhone (User.phone u)
  ++ validateSpecialization (User.specialization u).

(** The setters of the string paths. *)
Definition setName (u : User.t) (v : string) : User.t :=
  User.mk (Js.trim v) (User.email u) (User.password u) (User.role u)
          (User.phone u) (User.specialization u) (User.isActive u)
          (User.createdAt u) (User.updatedAt u).

Definition setPhone (u : User.t) (v : string) : User.t :=
  User.mk (User.name u) (User.email u) (User.password u) (User.role u)
          (Some (Js.trim v)) (User.specialization u) (User.isActive u)
          (User.createdAt u) (User.updatedAt u).

Definition setSpecialization (u : User.t) (v : string) : User.t :=
  User.mk (User.name u) (User.email u) (User.password u) (User.role u)
          (User.phone u) (Some (Js.trim v)) (User.isActive u)
          (User.createdAt u) (User.updatedAt u).

Definition setPassword (u : User.t) (v : string) : User.t :=
  User.mk (User.name u) (User.email u) v (User.role u)
          (User.phone u) (User.specialization u) (User.isActive u)
          (User.createdAt u) (User.updatedAt u).

Definition setUpdatedAt (u : User.t) (now : Z) : User.t :=
  User.mk (User.name u) (User.email u) (User.password u) (User.role u)
          (User.phone u) (User.specialization u) (User.isActive u)
          (User.createdAt u) now.

#[global] Instance eq_dec : EqDecision User.t.
Proof. solve_decision. Defined.

(** The timestamps plugin on a loaded document. *)
Definition touch (now : Z) (orig u : User.t) : User.t :=
  if decide (orig = u) then u else setUpdatedAt u now.

End UserSchema.

(** ** Accounts: [controllers/authController.js] and the rest of
    [controllers/userController.js] *)

(** The two functions of [bcryptjs] the user model calls:
    [bcrypt.hash(data, 12)], which draws a salt, and
    [bcrypt.compare(data, hash)]. *)
Record Bcrypt := mkBcrypt {
  bcryptHash : string → string → string;
  bcryptCompare : string → string → bool
}.

(** The payload [generateToken] signs: [{ userId, email, role }] with the
    issue time and the expiry of [expiresIn: '7d'], in seconds. *)
Record Token := mkToken {
  t_userId : Id;
  t_email : string;
  t_role : Role;
  t_iat : Z;
  t_exp : Z
}.

Definition generateToken (now : Z) (id : Id) (u : User.t) : Token :=
  mkToken id (User.email u) (User.role u) (now / 1000)
          (now / 1000 + 7 * 24 * 60 * 60).

(** [User.findOne({ email })] for a value of the path already cast. *)
Definition findByEmail (e : string) (us : gmap N User.t) : option (Id * User.t) :=
  List.find (λ kv, String.eqb (User.email kv.2) e) (map_to_list us).

Record RegisterBody := mkRegisterBody {
  rb_name : option string;
  rb_email : option string;
  rb_password : option string;
  rb_role : option string;
  rb_phone : option string;
  rb_specialization : option string
}.

(** [role || 'patient']. *)
Definition roleOrDefault (v : option string) : string :=
  match UserSchema.present v with Some r => r | None => "patient" end.

Definition invalidRole (r : string) : string :=
  String.append "`" (String.append r "` is not a valid enum value for path `role`.").

(** The messages of the [ValidationError] of [new User({...})] built from a
    registration body, in the order of the schema's paths. *)
Definition validateNewUser (body : RegisterBody) (email : string) : list string :=
  UserSchema.validateName (Js.trim <$> rb_name body)
  ++ UserSchema.validateEmail (Some (UserSchema.castEmail email))
  ++ UserSchema.validatePassword (rb_password body)
  ++ match UserSchema.parseRole (roleOrDefault (rb_role body)) with
     | Some _ => []
     | None => [invalidRole (roleOrDefault (rb_role body))]
     end
  ++ UserSchema.validatePhone (Js.trim <$> rb_phone body)
  ++ UserSchema.validateSpecialization (Js.trim <$> rb_specialization body).

(** [registerUser]. [oid] is the id of the new document and [salt] the salt
    the pre-save hook draws. A body without email makes
    [email.toLowerCase()] throw; the unique index on [email] refuses a
    second document with the stored email. *)
Definition registerUser (bc : Bcrypt) (now : Z) (oid : Id) (salt : string)
    (body : RegisterBody) (s : State) : Reply (User.Profile * Token) * State :=
  match rb_email body with
  | None => (refuse 500 "Registration failed", s)
  | Some email =>
      match findByEmail (UserSchema.castEmail (toLowerCase email)) (users s) with
      | Some _ => (refuse 400 "User with this email already exists", s)
      | None =>
          match validateNewUser body email,
                UserSchema.parseRole (roleOrDefault (rb_role body)) with
          | [], Some role =>
              let u :=
                User.mk (default String.EmptyString (Js.trim <$> rb_name body))
                  (UserSchema.castEmail email)
                  (bcryptHash bc salt (default String.EmptyString (rb_password body)))
                  role
                  (Js.trim <$> rb_phone body)
                  (Js.trim <$> rb_specialization body)
                  true now now in
              match findByEmail (User.email u) (users s), users s !! oid with
              | None, None =>
                  (answer 201 (Some "User registered successfully")
                     (User.getProfile oid u, generateToken now oid u),
                   withUsers s (<[oid := u]> (users s)))
              | _, _ => (refuse 500 "Registration failed", s)
              end
          | errs, _ => (invalid errs, s)
          end
      end
  end.

Record LoginBody := mkLoginBody {
  lb_email : option string;
  lb_password : option string
}.

(** [loginUser]. *)
Definition loginUser (bc : Bcrypt) (now : Z) (body : LoginBody) (s : State)
  : Reply (User.Profile * Token) :=
  match UserSchema.present (lb_email body), UserSchema.present (lb_password body) with
  | Some email, Some password =>
      match findByEmail (UserSchema.castEmail (toLowerCase email)) (users s) with
      | None => refuse 401 "Invalid email or password"
      | Some (id, u) =>
          if negb (User.isActive u) then refuse 401 "Account is deactivated"
          else if negb (bcryptCompare bc password (User.password u))
          then refuse 401 "Invalid email or password"
          else answer 200 (Some "Login successful")
                 (User.getProfile id u, generateToken now id u)
      end
  | _, _ => refuse 400 "Email and password are required"
  end.

(** [getCurrentUser]. *)
Definition getCurrentUser (caller : Caller) (s : State) : Reply User.Profile :=
  match users s !! callerId caller with
  | None => refuse 404 "User not found"
  | Some u => answer 200 None (User.getProfile (callerId caller) u)
  end.

(** [refreshToken]. *)
Definition refreshToken (now : Z) (caller : Caller) (s : State) : Reply Token :=
  match users s !! callerId caller with
  | Some u =>
      if User.isActive u
      then answer 200 (Some "Token refreshed successfully")
             (generateToken now (callerId caller) u)
      else refuse 401 "User not found or inactive"
  | None => refuse 401 "User not found or inactive"
  end.

(** [getUserProfile]; [param] is [req.params.userId]. *)
Definition getUserProfile (caller : Caller) (param : option Id) (s : State)
  : Reply User.Profile :=
  let userId := default (callerId caller) param in
  if negb (bool_decide (callerRole caller = admin))
     && negb (bool_decide (callerId caller = userId))
  then refuse 403 "Access denied"
  else
    match users s !! userId with
    | None => refuse 404 "User not found"
    | Some u => answer 200 None (User.getProfile userId u)
    end.

Record ProfileBody := mkProfileBody {
  pb_name : option string;
  pb_phone : option string;
  pb_specialization : option string
}.

(** [if (v) set(u, v)]: an absent or empty value leaves the path alone. *)
Definition setIfGiven (set : User.t → string → User.t) (v : option string)
    (u : User.t) : User.t :=
  match UserSchema.present v with Some x => set u x | None => u end.

(** [updateUserProfile]. *)
Definition updateUserProfile (now : Z) (caller : Caller) (param : option Id)
    (body : ProfileBody) (s : State) : Reply User.Profile * State :=
  let userId := default (callerId caller) param in
  if negb (bool_decide (callerRole caller = admin))
     && negb (bool_decide (callerId caller = userId))
  then (refuse 403 "Access denied", s)
  else
    match users s !! userId with
    | None => (refuse 404 "User not found", s)
    | Some u =>
        let u1 :=
          setIfGiven UserSchema.setSpecialization (pb_specialization body)
            (setIfGiven UserSchema.setPhone (pb_phone body)
               (setIfGiven UserSchema.setName (pb_name body) u)) in
        let u' := UserSchema.touch now u u1 in
        match UserSchema.validateLoaded u' with
        | [] =>
            (answer 200 (Some "Profile updated successfully")
               (User.getProfile userId u'),
             withUsers s (<[userId := u']> (users s)))
        | errs => (invalid errs, s)
        end
    end.

Record PasswordBody := mkPasswordBody {
  pw_current : option string;
  pw_new : option string
}.

(** [changePassword]. The password is hashed by the pre-save hook when the
    assignment modified the path, that is when the new value differs from
    the stored one; every error of [save()] lands in the [catch] block. *)
Definition changePassword (bc : Bcrypt) (now : Z) (salt : string)
    (caller : Caller) (body : PasswordBody) (s : State) : Reply unit * State :=
  match UserSchema.present (pw_current body), UserSchema.present (pw_new body) with
  | Some current, Some new =>
      if Js.length new <? 6
      then (refuse 400 "New password must be at least 6 characters long", s)
      else
        match users s !! callerId caller with
        | None => (refuse 404 "User not found", s)
        | Some u =>
            if negb (bcryptCompare bc current (User.password u))
            then (refuse 400 "Current password is incorrect", s)
            else
              match UserSchema.validateLoaded u
                    ++ UserSchema.validatePassword (Some new) with
              | [] =>
                  let u' :=
                    if decide (new = User.password u) then u
                    else UserSchema.setUpdatedAt
                           (UserSchema.setPassword u (bcryptHash bc salt new)) now in
                  (mkReply 200 true (Some "Password changed successfully") [] None,
                   withUsers s (<[callerId caller := u']> (users s)))
              | _ => (refuse 500 "Failed to change password", s)
              end
        end
  | _, _ => (refuse 400 "Current password and new password are required", s)
  end.

(** No two users share an email. *)
Definition uniqueEmails (us : gmap N User.t) : Prop :=
  ∀ i j u v, us !! i = Some u → us !! j = Some v →
             User.email u = User.email v → i = j.

(** A [bcrypt] whose [compare] accepts the data a hash was made of. *)
Definition bcryptSound (bc : Bcrypt) : Prop :=
  ∀ salt data, bcryptCompare bc data (bcryptHash bc salt data) = true.

(** A stand-in for [bcrypt] in the concrete checks: the hash is the data,
    a dollar sign and the salt. *)
Definition toyBcrypt : Bcrypt :=
  mkBcrypt (λ salt data, String.append data (String.append "$" salt))
           (λ data h, String.prefix (String.append data "$") h).

Module SampleAccounts.

Definition ann : RegisterBody :=
  mkRegisterBody (Some " Ann Lee ") (Some "Ann.Lee@Mail.Com") (Some "s3cretPw")
                 (Some "admin") None None.

Definition annLogin : LoginBody :=
  mkLoginBody (Some "ANN.LEE@mail.com") (Some "s3cretPw").

(** The store after Ann has registered under id 7. *)
Definition withAnn : State :=
  (registerUser toyBcrypt Sample.early 7 "salt" ann Sample.noBookings).2.

(** Ann's document in that store. *)
Definition annStored : User.t :=
  User.mk "Ann Lee" "ann.lee@mail.com" "s3cretPw$salt" admin None None true
          Sample.early Sample.early.

End SampleAccounts.

(** * Properties *)

(** ** The store queries and the pre-save hook *)

Section Store.
Implicit Types (appts : gmap N Appointment.t) (a b : Appointment.t) (id j : N).

Lemma findOne_Some P appts j b :
  Appointment.findOne P appts = Some (j, b) → appts !! j = Some b ∧ P j b = true.
Proof.
  unfold Appointment.findOne. intros H.
  apply List.find_some in H as [Hin HP]. split; [|done].
  apply elem_of_map_to_list. by apply list_elem_of_In.
Qed.

Lemma findOne_None P appts :
  Appointment.findOne P appts = None ↔ ∀ j b, appts !! j = Some b → P j b = false.
Proof.
  unfold Appointment.findOne. split.
  - intros H j b Hjb.
    apply (List.find_none _ _ H (j, b)).
    apply list_elem_of_In. by apply elem_of_map_to_list.
  - intros H. destruct (List.find _ _) as [[j b]|] eqn:E; [|done].
    apply List.find_some in E as [Hin HP].
    apply list_elem_of_In, elem_of_map_to_list in Hin.
    simpl in HP. rewrite (H _ _ Hin) in HP. done.
Qed.

Lemma conflictsWith_spec id a j b :
  Appointment.conflictsWith id a j b = true ↔
  sameSlot b a ∧ Appointment.status b ≠ cancelled ∧ j ≠ id.
Proof.
  unfold Appointment.conflictsWith, sameSlot.
  rewrite !andb_true_iff, !negb_true_iff, !bool_decide_eq_true,
    !bool_decide_eq_false, String.eqb_eq. tauto.
Qed.

Lemma preSave_Some id a appts :
  slotTaken id a appts ↔ Appointment.preSave id a appts = Some Appointment.SlotBooked.
Proof.
  unfold Appointment.preSave, slotTaken. split.
  - intros (j & b & Hjb & Hne & Hslot & Hst).
    destruct (Appointment.findOne _ _) eqn:E; [done|].
    rewrite findOne_None in E. specialize (E j b Hjb).
    assert (Appointment.conflictsWith id a j b = true) by (by apply conflictsWith_spec).
    congruence.
  - destruct (Appointment.findOne _ _) as [[j b]|] eqn:E; [|done].
    intros _. apply findOne_Some in E as [Hjb HP].
    apply conflictsWith_spec in HP as (? & ? & ?). eauto 10.
Qed.

Lemma preSave_None id a appts :
  ¬ slotTaken id a appts ↔ Appointment.preSave id a appts = None.
Proof.
  rewrite preSave_Some. unfold Appointment.preSave.
  destruct (Appointment.findOne _ _); split; (done || congruence).
Qed.

Lemma validate_written now orig a :
  Appointment.validate now (Appointment.written now orig a) = Appointment.validate now a.
Proof.
  destruct orig as [o|]; [|done]. simpl. unfold Appointment.touch.
  by destruct (decide _).
Qed.

Lemma preSave_written now orig id a appts :
  Appointment.preSave id (Appointment.written now orig a) appts
  = Appointment.preSave id a appts.
Proof.
  destruct orig as [o|]; [|done]. simpl. unfold Appointment.touch.
  by destruct (decide _).
Qed.

Lemma save_inr now id orig a appts appts' :
  Appointment.save now id orig a appts = inr appts' →
  Appointment.validate now a = []
  ∧ Appointment.preSave id a appts = None
  ∧ (orig = None → appts !! id = None)
  ∧ appts' = <[id := Appointment.written now orig a]> appts.
Proof.
  unfold Appointment.save. cbv zeta.
  rewrite validate_written, preSave_written.
  destruct (Appointment.validate now a); [|done].
  destruct (Appointment.preSave id a appts); [done|].
  destruct orig, (appts !! id) eqn:?; intros [= <-]; by split_and!.
Qed.

Lemma save_ok now id orig a appts :
  Appointment.validate now a = [] →
  Appointment.preSave id a appts = None →
  (orig = None → appts !! id = None) →
  Appointment.save now id orig a appts
  = inr (<[id := Appointment.written now orig a]> appts).
Proof.
  intros Hv Hp Hnew. unfold Appointment.save. cbv zeta.
  rewrite validate_written, preSave_written, Hv, Hp.
  destruct orig; [done|]. by rewrite (Hnew eq_refl).
Qed.

Lemma save_blocked now id orig a appts e :
  Appointment.preSave id a appts = Some e →
  ∃ e', Appointment.save now id orig a appts = inl e'
        ∧ (Appointment.validate now a = [] → e' = e).
Proof.
  intros Hp. unfold Appointment.save. cbv zeta.
  rewrite validate_written, preSave_written, Hp.
  destruct (Appointment.validate now a); eauto.
  eexists; split; [done|done].
Qed.

Lemma sameSlot_written now orig a b :
  sameSlot (Appointment.written now orig a) b ↔ sameSlot a b.
Proof.
  destruct orig as [o|]; [|done]. simpl. unfold Appointment.touch.
  by destruct (decide _).
Qed.

Lemma status_written now orig a :
  Appointment.status (Appointment.written now orig a) = Appointment.status a.
Proof.
  destruct orig as [o|]; [|done]. simpl. unfold Appointment.touch.
  by destruct (decide _).
Qed.

Lemma sameSlot_sym a b : sameSlot a b → sameSlot b a.
Proof. intros (? & ? & ?). by split_and!. Qed.

Lemma save_noDoubleBooking now id orig a appts appts' :
  noDoubleBooking appts →
  Appointment.save now id orig a appts = inr appts' →
  noDoubleBooking appts'.
Proof.
  intros Hinv (Hv & Hp & _ & ->)%save_inr.
  apply preSave_None in Hp.
  intros i j x y Hi Hj Hij Hx Hy Hslot.
  destruct (decide (i = id)) as [->|Hi'], (decide (j = id)) as [->|Hj'];
    simplify_map_eq.
  - apply Hp. exists j, y. split_and!; try done.
    apply sameSlot_sym. by apply (sameSlot_written now orig).
  - apply Hp. exists i, x. split_and!; try done.
    by apply sameSlot_sym, (sameSlot_written now orig), sameSlot_sym.
  - by apply (Hinv i j x y).
Qed.

Lemma serve_appointments now uid req s :
  appointments (serve now uid req s).2 = appointments s
  ∨ ∃ id orig a,
      Appointment.save now id orig a (appointments s)
      = inr (appointments (serve now uid req s).2).
Proof.
  unfold serve. destruct (authenticateToken uid s) as [r|caller]; [by left|].
  destruct req as [oid body|q|id|id st|id|userId isActive].
  - destruct (authorizeRole _ _); [by left|].
    unfold createAppointment.
    destruct (b_doctorId body), (b_date body) as [[d|]|],
      (truthyString (b_time body)); try by left.
    + destruct (findActiveDoctor _ _); [|by left].
      destruct (d <=? now); [by left|].
      destruct (Appointment.save _ _ _ _ _) eqn:E; [by left|]. right. eauto.
    + destruct (findActiveDoctor _ _); by left.
  - unfold getAppointments. destruct (q_date q) as [[d|]|]; try by left.
    + destruct (getAppointmentsWithUsers _ _ _ _); by left.
    + destruct (getAppointmentsWithUsers _ _ _ _); by left.
  - unfold getAppointmentById. destruct (Appointment.findOne _ _) as [[??]|]; by left.
  - unfold updateAppointmentStatus.
    destruct (parseStatus st); [|by left].
    destruct (appointments s !! id); [|by left].
    destruct (accessDenied _ _); [by left|].
    destruct (Appointment.save _ _ _ _ _) eqn:E; [by left|]. right. eauto.
  - unfold cancelAppointment.
    destruct (appointments s !! id); [|by left].
    destruct (accessDenied _ _); [by left|].
    destruct (negb _); [by left|].
    destruct (Appointment.save _ _ _ _ _) eqn:E; [by left|]. right. eauto.
  - destruct (authorizeRole _ _); [by left|].
    unfold updateUserStatus.
    destruct (negb _); [by left|].
    destruct (users s !! userId); [|by left].
    destruct (bool_decide _); by left.
Qed.

Lemma serve_noDoubleBooking now uid req s :
  noDoubleBooking (appointments s) →
  noDoubleBooking (appointments (serve now uid req s).2).
Proof.
  intros Hinv.
  destruct (serve_appointments now uid req s) as [->|(id & orig & a & Hsave)];
    [done|].
  by eapply save_noDoubleBooking.
Qed.

Lemma run_noDoubleBooking trace s :
  noDoubleBooking (appointments s) →
  noDoubleBooking (appointments (run trace s)).
Proof.
  revert s. induction trace as [|[[now uid] req] rest IH]; intros s Hinv; [done|].
  simpl. apply IH. by apply serve_noDoubleBooking.
Qed.
End Store.

(** ** C1: the conflict guard *)

(** C1. A save (of a new document, or of a loaded one) of a document whose
    slot (doctorId, date, time) is held by another non-cancelled appointment
    fails, with the error "Appointment slot is already booked" once the
    schema validators have passed, and leaves the collection as it was;
    when no such appointment exists the save of a valid document writes it.
    [createAppointment] answers the conflict with that message and status
    400 and an unchanged store. In every sequential execution the store
    keeps the property that no two non-cancelled appointments share a
    (doctor, date, time). *)
Theorem conflict_guard_prevents_double_booking :
  (∀ now id orig a appts,
      slotTaken id a appts →
      ∃ e, Appointment.save now id orig a appts = inl e
           ∧ (Appointment.validate now a = [] →
              e = Appointment.SlotBooked
              ∧ Appointment.errorMessage e = "Appointment slot is already booked"))
  ∧ (∀ now id orig a appts,
      ¬ slotTaken id a appts →
      Appointment.validate now a = [] →
      (orig = None → appts !! id = None) →
      Appointment.save now id orig a appts
      = inr (<[id := Appointment.written now orig a]> appts))
  ∧ (∀ now oid caller body s doctorId d time,
      b_doctorId body = Some doctorId →
      b_date body = Some (Instant d) →
      truthyString (b_time body) = Some time →
      slotTaken oid (newAppointment now (callerId caller) doctorId d time body)
        (appointments s) →
      (createAppointment now oid caller body s).2 = s
      ∧ success (createAppointment now oid caller body s).1 = false
      ∧ (is_Some (findActiveDoctor (users s) doctorId) →
         now < d →
         Appointment.validate now
           (newAppointment now (callerId caller) doctorId d time body) = [] →
         (createAppointment now oid caller body s).1
         = fail 400 "Appointment slot is already booked"))
  ∧ (∀ trace s,
      noDoubleBooking (appointments s) →
      noDoubleBooking (appointments (run trace s))).
Proof.
  split_and!.
  - intros now id orig a appts Htaken%preSave_Some.
    destruct (save_blocked now id orig a appts _ Htaken) as (e & He & Hv).
    exists e. split; [done|]. intros ->%Hv. done.
  - intros now id orig a appts Hfree%preSave_None Hv Hnew. by apply save_ok.
  - intros now oid caller body s doctorId d time Hdoc Hdate Htime Htaken%preSave_Some.
    unfold createAppointment. rewrite Hdoc, Hdate, Htime.
    destruct (findActiveDoctor (users s) doctorId) as [u|] eqn:Hu.
    2:{ split_and!; [done..|]. by intros [? [=]]. }
    destruct (d <=? now) eqn:Hd.
    { split_and!; [done..|]. intros _ ?. apply Z.leb_le in Hd. lia. }
    destruct (save_blocked now oid None _ _ _ Htaken) as (e & -> & He).
    split_and!; [done| by destruct e|].
    intros _ _ ->%He. done.
  - intros trace s. apply run_noDoubleBooking.
Qed.

(** The scenario of the specification: P1 holds Dr. A's 10:00 slot, so the
    same booking by P2 is refused; once P1 has cancelled, P2 gets the slot;
    and the store reached by those requests has no double booking. *)
Lemma conflict_guard_prevents_double_booking_witness :
  (createAppointment Sample.early 11 Sample.asP2 (Sample.booking "10:00" None)
     Sample.oneBooking
   = (fail 400 "Appointment slot is already booked", Sample.oneBooking))
  ∧ Appointment.save Sample.early 11 None Sample.atTenP2
      {[10%N := Appointment.setStatus Sample.atTen cancelled]}
    = inr (<[11%N := Sample.atTenP2]>
             {[10%N := Appointment.setStatus Sample.atTen cancelled]})
  ∧ noDoubleBooking
      (appointments
         (run [(Sample.early, 2%N, PostAppointment 10 (Sample.booking "10:00" None));
               (Sample.early, 3%N, PostAppointment 11 (Sample.booking "10:00" None));
               (Sample.early, 2%N, PostAppointmentCancel 10);
               (Sample.early, 3%N, PostAppointment 11 (Sample.booking "10:00" None))]
            Sample.noBookings)).
Proof.
  destruct conflict_guard_prevents_double_booking as (_ & Hfree & Hcreate & Hrun).
  split_and!.
  - assert (slotTaken 11 Sample.atTenP2 (appointments Sample.oneBooking)) as Htaken.
    { exists 10%N, Sample.atTen. by vm_compute. }
    destruct (Hcreate Sample.early 11%N Sample.asP2 (Sample.booking "10:00" None)
                Sample.oneBooking 1%N Sample.day "10:00"
                eq_refl eq_refl eq_refl Htaken) as (Hs & _ & Hr).
    rewrite <- Hs at 2. rewrite <- Hr; [by destruct (createAppointment _ _ _ _ _)| | |].
    + by eexists.
    + by vm_compute.
    + by vm_compute.
  - apply (Hfree Sample.early 11%N None Sample.atTenP2); [|by vm_compute|done].
    apply preSave_None. by vm_compute.
  - apply Hrun. intros i j a b Hi. simpl in Hi. by rewrite lookup_empty in Hi.
Defined.

(** ** Scope and status changes *)

Section Handlers.
Implicit Types (s : State) (a : Appointment.t) (id : N) (caller : Caller).

Lemma inScope_visibleTo caller a : inScope caller a = true ↔ visibleTo caller a.
Proof.
  unfold inScope, visibleTo.
  destruct (callerRole caller); rewrite ?bool_decide_eq_true; tauto.
Qed.

Lemma accessDenied_inScope caller a : accessDenied caller a = negb (inScope caller a).
Proof.
  unfold accessDenied, inScope.
  destruct (callerRole caller); simpl; by rewrite ?orb_false_r.
Qed.

Lemma accessDenied_visibleTo caller a : visibleTo caller a → accessDenied caller a = false.
Proof.
  intros H%inScope_visibleTo. by rewrite accessDenied_inScope, H.
Qed.

Lemma findOne_byId (P : Appointment.t → bool) (appts : gmap N Appointment.t) id :
  Appointment.findOne (λ j a, bool_decide (j = id) && P a) appts
  = match appts !! id with
    | Some a => if P a then Some (id, a) else None
    | None => None
    end.
Proof.
  destruct (Appointment.findOne _ _) as [[j b]|] eqn:E.
  - apply findOne_Some in E as [Hjb [->%bool_decide_eq_true HP]%andb_true_iff].
    by rewrite Hjb, HP.
  - rewrite findOne_None in E.
    destruct (appts !! id) as [a|] eqn:Ha; [|done].
    specialize (E id a Ha). rewrite bool_decide_eq_true_2 in E by done.
    simpl in E. by rewrite E.
Qed.

Lemma parseStatus_statusName str st : parseStatus str = Some st ↔ str = statusName st.
Proof.
  unfold parseStatus. split.
  - repeat (destruct (String.eqb _ _) eqn:E;
            [apply String.eqb_eq in E; intros [= <-]; exact E|clear E]); done.
  - intros ->. by destruct st.
Qed.

Lemma setStatus_same a : Appointment.setStatus a (Appointment.status a) = a.
Proof. by destruct a. Qed.

Lemma sameBooking_written now a st :
  sameBooking a (Appointment.written now (Some a) (Appointment.setStatus a st)).
Proof.
  simpl. unfold Appointment.touch. destruct (decide _); by split_and!.
Qed.

(** What a status write does to the store when [save()] lets it through. *)
Lemma status_saved now id a st (appts : gmap N Appointment.t) :
  Appointment.validate now a = [] →
  ¬ slotTaken id a appts →
  Appointment.save now id (Some a) (Appointment.setStatus a st) appts
  = inr (<[id := Appointment.written now (Some a) (Appointment.setStatus a st)]> appts).
Proof.
  intros Hv Hfree. apply save_ok; [done| |done].
  by apply preSave_None in Hfree.
Qed.

End Handlers.

(** ** C2: status transitions *)

(** C2, counterexample. A completed appointment is set back to pending by
    its patient: the request is answered 200 and the stored status is
    pending, so completed is not terminal. *)
Lemma completed_appointment_reopened :
  Appointment.status <$> appointments Sample.oneCompleted !! 10%N = Some completed
  ∧ code (updateAppointmentStatus Sample.early Sample.asP1 10 "pending"
            Sample.oneCompleted).1 = 200
  ∧ Appointment.status <$>
      appointments (updateAppointmentStatus Sample.early Sample.asP1 10 "pending"
                      Sample.oneCompleted).2 !! 10%N
    = Some pending.
Proof. by vm_compute. Qed.

(** C2, amended. [updateAppointmentStatus] has no transition table: for a
    caller whose scope holds the appointment, each of the four status names
    is accepted whatever the current status is (completed and cancelled
    included), provided the document still passes the schema validators and
    no other non-cancelled appointment holds its slot; the answer is 200 and
    the stored status is the requested one. Asking for the current status
    again is accepted and leaves the store as it was. A status that is not
    one of the four names is answered 400 "Invalid status value" with the
    store unchanged. *)
Theorem status_update_accepts_every_enum_value :
  (∀ now caller id str st s a,
      parseStatus str = Some st →
      appointments s !! id = Some a →
      visibleTo caller a →
      Appointment.validate now a = [] →
      ¬ slotTaken id a (appointments s) →
      code (updateAppointmentStatus now caller id str s).1 = 200
      ∧ success (updateAppointmentStatus now caller id str s).1 = true
      ∧ (Appointment.status <$>
           appointments (updateAppointmentStatus now caller id str s).2 !! id)
        = Some st
      ∧ (st = Appointment.status a →
         (updateAppointmentStatus now caller id str s).2 = s))
  ∧ (∀ now caller id str s,
      parseStatus str = None →
      updateAppointmentStatus now caller id str s
      = (fail 400 "Invalid status value", s))
  ∧ (∀ str st, parseStatus str = Some st ↔ str = statusName st).
Proof.
  split_and!.
  - intros now caller id str st s a Hst Ha Hvis Hv Hfree.
    unfold updateAppointmentStatus.
    rewrite Hst, Ha, (accessDenied_visibleTo _ _ Hvis), (status_saved _ _ _ _ _ Hv Hfree).
    simpl. split_and!; [done..| |].
    + rewrite lookup_insert_eq. simpl. unfold Appointment.touch.
      by destruct (decide _).
    + intros ->. rewrite setStatus_same. unfold Appointment.touch.
      rewrite decide_True by done. rewrite insert_id by done. by destruct s.
  - intros now caller id str s Hst. unfold updateAppointmentStatus. by rewrite Hst.
  - apply parseStatus_statusName.
Qed.

Lemma status_update_accepts_every_enum_value_witness :
  (code (updateAppointmentStatus Sample.early Sample.asRoot 10 "confirmed"
           Sample.oneCompleted).1 = 200
   ∧ Appointment.status <$>
       appointments (updateAppointmentStatus Sample.early Sample.asRoot 10
                       "confirmed" Sample.oneCompleted).2 !! 10%N
     = Some confirmed)
  ∧ updateAppointmentStatus Sample.early Sample.asRoot 10 "done" Sample.oneCompleted
    = (fail 400 "Invalid status value", Sample.oneCompleted).
Proof.
  destruct status_update_accepts_every_enum_value as (Hany & Hbad & _).
  split.
  - destruct (Hany Sample.early Sample.asRoot 10%N "confirmed" confirmed
                Sample.oneCompleted (Appointment.setStatus Sample.atTen completed))
      as (Hc & _ & Hst & _).
    + done.
    + done.
    + done.
    + by vm_compute.
    + apply preSave_None. by vm_compute.
    + by split.
  - by apply Hbad.
Defined.

(** ** C3: the cancellation cutoff *)

Lemma canBeCancelled_spec now (a : Appointment.t) :
  Appointment.canBeCancelled now a = true ↔
  ∃ start, Appointment.appointmentDateTime a = Some start
           ∧ now + Appointment.twoHours < start.
Proof.
  unfold Appointment.canBeCancelled.
  destruct (Appointment.appointmentDateTime a) as [start|].
  - rewrite Z.gtb_gt. split.
    + intros H. exists start. split; [done|lia].
    + intros (? & [= <-] & ?). lia.
  - split; [done|]. by intros (? & [=] & _).
Qed.

(** C3, counterexample. An admin cancels, at 9:00, an appointment that
    starts at 10:00 of the same day: the request gets the timing error, as
    it would for any other caller. *)
Lemma admin_cancel_inside_cutoff_refused :
  callerRole Sample.asRoot = admin
  ∧ Appointment.appointmentDateTime Sample.soon
    = Some (Sample.nineOClock + Date.msPerHour)
  ∧ cancelAppointment Sample.nineOClock Sample.asRoot 12 Sample.oneSoon
    = (fail 400 "Appointment cannot be cancelled (less than 2 hours away)",
       Sample.oneSoon).
Proof. by vm_compute. Qed.

(** C3, amended. For every appointment and every caller who is its patient,
    its doctor or an admin: [canBeCancelled] holds exactly when the start
    (the date with the hours and minutes of the time field) is more than two
    hours after now; when it does not hold, [cancelAppointment] answers 400
    with the timing error and changes nothing, for an admin as for anyone
    else; when it holds, the document still passes the schema validators
    and no other non-cancelled appointment holds its slot, the cancellation
    is answered 200 and the stored status is cancelled. *)
Theorem cancel_cutoff_binds_every_role now caller id s a :
  appointments s !! id = Some a →
  visibleTo caller a →
  (Appointment.canBeCancelled now a = true ↔
   ∃ start, Appointment.appointmentDateTime a = Some start
            ∧ now + Appointment.twoHours < start)
  ∧ (Appointment.canBeCancelled now a = false →
     cancelAppointment now caller id s
     = (fail 400 "Appointment cannot be cancelled (less than 2 hours away)", s))
  ∧ (Appointment.canBeCancelled now a = true →
     Appointment.validate now a = [] →
     ¬ slotTaken id a (appointments s) →
     (cancelAppointment now caller id s).1
     = ok 200 (Some "Appointment cancelled successfully") NoData
     ∧ Appointment.status <$> appointments (cancelAppointment now caller id s).2 !! id
       = Some cancelled).
Proof.
  intros Ha Hvis. split_and!.
  - apply canBeCancelled_spec.
  - intros Hno. unfold cancelAppointment.
    by rewrite Ha, (accessDenied_visibleTo _ _ Hvis), Hno.
  - intros Hyes Hv Hfree. unfold cancelAppointment.
    rewrite Ha, (accessDenied_visibleTo _ _ Hvis), Hyes,
      (status_saved _ _ _ _ _ Hv Hfree).
    simpl. split; [done|]. rewrite lookup_insert_eq. simpl.
    unfold Appointment.touch. by destruct (decide _).
Qed.

(** An admin is refused one hour before the start; the patient succeeds ten
    days before it. *)
Lemma cancel_cutoff_binds_every_role_witness :
  cancelAppointment Sample.nineOClock Sample.asRoot 12 Sample.oneSoon
  = (fail 400 "Appointment cannot be cancelled (less than 2 hours away)",
     Sample.oneSoon)
  ∧ (cancelAppointment Sample.early Sample.asP1 10 Sample.oneBooking).1
    = ok 200 (Some "Appointment cancelled successfully") NoData
  ∧ Appointment.status <$>
      appointments (cancelAppointment Sample.early Sample.asP1 10
                      Sample.oneBooking).2 !! 10%N
    = Some cancelled.
Proof.
  split.
  - apply (cancel_cutoff_binds_every_role Sample.nineOClock Sample.asRoot 12%N
             Sample.oneSoon Sample.soon); [done|done|by vm_compute].
  - apply (cancel_cutoff_binds_every_role Sample.early Sample.asP1 10%N
             Sample.oneBooking Sample.atTen); [done|done|by vm_compute..|].
    apply preSave_None. by vm_compute.
Defined.

(** ** C7: what an out-of-scope caller is told *)

(** C7, counterexample. P2 asks to confirm P1's appointment 10 and is told
    403 "Access denied"; the same request for the id 99, which matches no
    appointment, is told 404 "Appointment not found". The same holds for
    cancelling. The two answers differ, so the caller learns that
    appointment 10 exists. *)
Lemma out_of_scope_update_reveals_existence :
  inScope Sample.asP2 Sample.atTen = false
  ∧ (updateAppointmentStatus Sample.early Sample.asP2 10 "confirmed"
       Sample.oneBooking).1 = fail 403 "Access denied"
  ∧ (updateAppointmentStatus Sample.early Sample.asP2 99 "confirmed"
       Sample.oneBooking).1 = fail 404 "Appointment not found"
  ∧ (cancelAppointment Sample.early Sample.asP2 10 Sample.oneBooking).1
    = fail 403 "Access denied"
  ∧ (cancelAppointment Sample.early Sample.asP2 99 Sample.oneBooking).1
    = fail 404 "Appointment not found"
  ∧ fail 403 "Access denied" ≠ fail 404 "Appointment not found".
Proof. by vm_compute. Qed.

(** C7, amended. Reading an appointment by id ([getAppointmentById]) tells
    a caller whose scope does not hold it exactly what it tells for an id
    that matches no appointment: 404 "Appointment not found", the same
    response as on the store without that appointment. The status update
    and the cancellation tell such a caller 403 "Access denied" (the status
    update only once the requested status is one of the four names), and
    tell 404 "Appointment not found" for an id that matches no appointment. *)
Theorem only_read_by_id_hides_out_of_scope now caller id s :
  (∀ a, appointments s !! id = Some a →
        ¬ visibleTo caller a →
        getAppointmentById now caller id s = (fail 404 "Appointment not found", s)
        ∧ (getAppointmentById now caller id
             (withAppointments s (delete id (appointments s)))).1
          = (getAppointmentById now caller id s).1
        ∧ (∀ str st, parseStatus str = Some st →
                     updateAppointmentStatus now caller id str s
                     = (fail 403 "Access denied", s))
        ∧ cancelAppointment now caller id s = (fail 403 "Access denied", s))
  ∧ (appointments s !! id = None →
     getAppointmentById now caller id s = (fail 404 "Appointment not found", s)
     ∧ (∀ str st, parseStatus str = Some st →
                  updateAppointmentStatus now caller id str s
                  = (fail 404 "Appointment not found", s))
     ∧ cancelAppointment now caller id s = (fail 404 "Appointment not found", s)).
Proof.
  split.
  - intros a Ha Hout.
    assert (inScope caller a = false) as Hs.
    { destruct (inScope caller a) eqn:E; [|done]. by apply inScope_visibleTo in E. }
    assert (accessDenied caller a = true) as Hd
      by (by rewrite accessDenied_inScope, Hs).
    split_and!.
    + unfold getAppointmentById. by rewrite findOne_byId, Ha, Hs.
    + unfold getAppointmentById. simpl.
      by rewrite !findOne_byId, lookup_delete_eq, Ha, Hs.
    + intros str st Hst. unfold updateAppointmentStatus. by rewrite Hst, Ha, Hd.
    + unfold cancelAppointment. by rewrite Ha, Hd.
  - intros Hnone. split_and!.
    + unfold getAppointmentById. by rewrite findOne_byId, Hnone.
    + intros str st Hst. unfold updateAppointmentStatus. by rewrite Hst, Hnone.
    + unfold cancelAppointment. by rewrite Hnone.
Qed.

Lemma only_read_by_id_hides_out_of_scope_witness :
  getAppointmentById Sample.early Sample.asP2 10 Sample.oneBooking
  = (fail 404 "Appointment not found", Sample.oneBooking)
  ∧ cancelAppointment Sample.early Sample.asP2 10 Sample.oneBooking
    = (fail 403 "Access denied", Sample.oneBooking)
  ∧ cancelAppointment Sample.early Sample.asP2 99 Sample.oneBooking
    = (fail 404 "Appointment not found", Sample.oneBooking).
Proof.
  destruct (only_read_by_id_hides_out_of_scope Sample.early Sample.asP2 10%N
              Sample.oneBooking) as [Hout _].
  destruct (only_read_by_id_hides_out_of_scope Sample.early Sample.asP2 99%N
              Sample.oneBooking) as [_ Hnone].
  destruct (Hout Sample.atTen) as (Hget & _ & _ & Hcancel); [done|by vm_compute|].
  destruct Hnone as (_ & _ & Hcancel'); [done|].
  split; [exact Hget|]. split; [exact Hcancel|exact Hcancel'].
Defined.

(** ** C8: the frame of a status transition *)

(** C8. A status update or a cancellation that is answered with success
    leaves, in the stored appointment, patientId, doctorId, date, time,
    duration, notes, symptoms, isUrgent and createdAt as they were; every
    other appointment and the users are untouched. *)
Theorem status_transition_frame now caller id s a :
  appointments s !! id = Some a →
  (∀ str,
      success (updateAppointmentStatus now caller id str s).1 = true →
      ∃ a', appointments (updateAppointmentStatus now caller id str s).2 !! id
            = Some a'
            ∧ sameBooking a a'
            ∧ (∀ j, j ≠ id →
                    appointments (updateAppointmentStatus now caller id str s).2 !! j
                    = appointments s !! j)
            ∧ users (updateAppointmentStatus now caller id str s).2 = users s)
  ∧ (success (cancelAppointment now caller id s).1 = true →
     ∃ a', appointments (cancelAppointment now caller id s).2 !! id = Some a'
           ∧ Appointment.status a' = cancelled
           ∧ sameBooking a a'
           ∧ (∀ j, j ≠ id →
                   appointments (cancelAppointment now caller id s).2 !! j
                   = appointments s !! j)
           ∧ users (cancelAppointment now caller id s).2 = users s).
Proof.
  intros Ha. split.
  - intros str. unfold updateAppointmentStatus.
    destruct (parseStatus str) as [st|]; [|done]. rewrite Ha.
    destruct (accessDenied caller a); [done|].
    destruct (Appointment.save _ _ _ _ _) as [e|appts] eqn:E; [done|].
    apply save_inr in E as (_ & _ & _ & ->). intros _. simpl.
    eexists. split_and!.
    + apply lookup_insert_eq.
    + apply (sameBooking_written now a st).
    + intros j Hj. by rewrite lookup_insert_ne.
    + done.
  - unfold cancelAppointment. rewrite Ha.
    destruct (accessDenied caller a); [done|].
    destruct (negb _); [done|].
    destruct (Appointment.save _ _ _ _ _) as [e|appts] eqn:E; [done|].
    apply save_inr in E as (_ & _ & _ & ->). intros _. simpl.
    eexists. split_and!.
    + apply lookup_insert_eq.
    + unfold Appointment.touch. by destruct (decide _).
    + apply (sameBooking_written now a cancelled).
    + intros j Hj. by rewrite lookup_insert_ne.
    + done.
Qed.

Lemma status_transition_frame_witness :
  ∃ a', appointments (cancelAppointment Sample.early Sample.asP1 10
                        Sample.oneBooking).2 !! 10%N = Some a'
        ∧ Appointment.status a' = cancelled
        ∧ sameBooking Sample.atTen a'.
Proof.
  destruct (status_transition_frame Sample.early Sample.asP1 10%N
              Sample.oneBooking Sample.atTen) as [_ Hcancel]; [done|].
  destruct Hcancel as (a' & Hlook & Hst & Hsame & _); [by vm_compute|].
  exists a'. split; [exact Hlook|]. split; [exact Hst|exact Hsame].
Defined.

(** ** C9: the guard compares start times only *)

(** C9. The guard reads only doctorId, date and time of the document being
    saved, and compares the time strings for equality: two documents that
    agree on the three get the same verdict whatever their durations, and
    when two valid new documents have different time strings (each free of
    conflicts in the store) both saves succeed, one after the other,
    whatever their durations, doctor and date. *)
Theorem guard_ignores_duration :
  (∀ id a a' appts,
      Appointment.doctorId a = Appointment.doctorId a' →
      Appointment.date a = Appointment.date a' →
      Appointment.time a = Appointment.time a' →
      Appointment.preSave id a appts = Appointment.preSave id a' appts)
  ∧ (∀ now now' ia ib a b appts,
      ia ≠ ib →
      Appointment.time a ≠ Appointment.time b →
      Appointment.validate now a = [] →
      Appointment.validate now' b = [] →
      appts !! ia = None →
      appts !! ib = None →
      ¬ slotTaken ia a appts →
      ¬ slotTaken ib b appts →
      ∃ appts1 appts2,
        Appointment.save now ia None a appts = inr appts1
        ∧ Appointment.save now' ib None b appts1 = inr appts2
        ∧ appts2 !! ia = Some a
        ∧ appts2 !! ib = Some b).
Proof.
  split.
  - intros id a a' appts Hd Hdt Ht.
    unfold Appointment.preSave, Appointment.findOne.
    f_equal. f_equal. unfold Appointment.conflictsWith. by rewrite Hd, Hdt, Ht.
  - intros now now' ia ib a b appts Hne Htime Hva Hvb Hia Hib Hfa Hfb.
    exists (<[ia := a]> appts), (<[ib := b]> (<[ia := a]> appts)).
    split_and!.
    + apply save_ok; [done|by apply preSave_None|done].
    + apply save_ok; [done| |by rewrite lookup_insert_ne].
      apply preSave_None. intros (j & c & Hj & Hjb & Hslot & Hst).
      destruct (decide (j = ia)) as [->|Hja].
      * rewrite lookup_insert_eq in Hj. injection Hj as <-.
        destruct Hslot as (_ & _ & ?). done.
      * rewrite lookup_insert_ne in Hj by done. apply Hfb. by exists j, c.
    + by rewrite lookup_insert_ne, lookup_insert_eq.
    + by rewrite lookup_insert_eq.
Qed.

(** P1 books Dr. A at 10:00 for 60 minutes, P2 books Dr. A at 10:30 of the
    same day for 30 minutes: both are created although 10:30 to 11:00 lies
    inside 10:00 to 11:00. *)
Lemma guard_ignores_duration_witness :
  ∃ appts1 appts2,
    Appointment.save Sample.early 10 None
      (newAppointment Sample.early 2 1 Sample.day "10:00"
         (Sample.booking "10:00" (Some 60))) ∅ = inr appts1
    ∧ Appointment.save Sample.early 11 None
        (newAppointment Sample.early 3 1 Sample.day "10:30"
           (Sample.booking "10:30" (Some 30))) appts1 = inr appts2
    ∧ Appointment.duration <$> appts2 !! 10%N = Some 60
    ∧ Appointment.time <$> appts2 !! 11%N = Some "10:30".
Proof.
  destruct guard_ignores_duration as [_ Hboth].
  destruct (Hboth Sample.early Sample.early 10%N 11%N
              (newAppointment Sample.early 2 1 Sample.day "10:00"
                 (Sample.booking "10:00" (Some 60)))
              (newAppointment Sample.early 3 1 Sample.day "10:30"
                 (Sample.booking "10:30" (Some 30))) ∅)
    as (appts1 & appts2 & H1 & H2 & Ha & Hb).
  - done.
  - by vm_compute.
  - by vm_compute.
  - by vm_compute.
  - done.
  - done.
  - apply preSave_None. by vm_compute.
  - apply preSave_None. by vm_compute.
  - exists appts1, appts2. rewrite Ha, Hb. by split_and!.
Defined.

(** ** C10: an admin and their own account *)

(** C10. [updateUserStatus] answers every request of an admin whose target
    is the admin's own id with 400 "Cannot deactivate your own account" and
    changes nothing, whether isActive is true or false; so does the route,
    for the bearer of a token of an active admin. *)
Theorem own_account_status_refused now isActive s :
  (∀ caller,
      callerRole caller = admin →
      is_Some (users s !! callerId caller) →
      updateUserStatus now caller (callerId caller) isActive s
      = (fail 400 "Cannot deactivate your own account", s))
  ∧ (∀ uid u,
      users s !! uid = Some u →
      User.isActive u = true →
      User.role u = admin →
      serve now uid (PatchUserStatus uid isActive) s
      = (fail 400 "Cannot deactivate your own account", s)).
Proof.
  split.
  - intros caller Hrole [u Hu]. unfold updateUserStatus.
    rewrite Hrole, Hu. simpl. by rewrite bool_decide_eq_true_2.
  - intros uid u Hu Hact Hrole. unfold serve, authenticateToken.
    rewrite Hu, Hact, Hrole. simpl.
    unfold updateUserStatus. simpl. rewrite Hu.
    by rewrite bool_decide_eq_true_2.
Qed.

Lemma own_account_status_refused_witness :
  updateUserStatus Sample.early Sample.asRoot 4 true Sample.noBookings
  = (fail 400 "Cannot deactivate your own account", Sample.noBookings)
  ∧ serve Sample.early 4 (PatchUserStatus 4 false) Sample.noBookings
    = (fail 400 "Cannot deactivate your own account", Sample.noBookings).
Proof.
  split.
  - apply (own_account_status_refused Sample.early true Sample.noBookings);
      [done|by eexists].
  - by apply (proj2 (own_account_status_refused Sample.early false Sample.noBookings)
                4%N Sample.root).
Defined.

(** ** C4: dates in the past *)

(** The strings the time pattern accepts have an hour part and a minute
    part that [parseInt] reads as numbers of the clock. *)
Lemma inRange_0_9 c :
  Js.isDigit c = true →
  c ∈ ["0"; "1"; "2"; "3"; "4"; "5"; "6"; "7"; "8"; "9"]%char.
Proof.
  destruct c as [[] [] [] [] [] [] [] []]; vm_compute; intros H;
    first [discriminate H | clear H; repeat constructor].
Qed.

Lemma inRange_digit lo hi c :
  Js.isDigit lo = true → Js.isDigit hi = true →
  Js.inRange lo hi c = true → Js.isDigit c = true.
Proof.
  unfold Js.inRange, Js.isDigit.
  rewrite !andb_true_iff, !Nat.leb_le. lia.
Qed.

Ltac digit_cases H :=
  apply inRange_0_9 in H;
  repeat (apply elem_of_cons in H as [->|H]);
  [..|by apply elem_of_nil in H].

Lemma timePattern_parses t :
  Appointment.timePattern t = true →
  match Js.parseIntAt (Js.split t) 0, Js.parseIntAt (Js.split t) 1 with
  | Some h, Some m => (0 <=? h) && (h <=? 23) && (0 <=? m) && (m <=? 59)
  | _, _ => false
  end = true.
Proof.
  unfold Appointment.timePattern.
  destruct t as [|c1 [|c2 [|c3 [|c4 [|c5 [|c6 t]]]]]]; try discriminate; simpl.
  - rewrite !andb_true_iff. intros [[[H1 ->%Ascii.eqb_eq] H3] H4].
    pose proof (inRange_digit "0" "5" _ eq_refl eq_refl H3) as H3'.
    digit_cases H1; digit_cases H3'; try discriminate H3;
      digit_cases H4; vm_compute; reflexivity.
  - rewrite !andb_true_iff, orb_true_iff, !andb_true_iff.
    intros [[[H12 ->%Ascii.eqb_eq] H4] H5].
    pose proof (inRange_digit "0" "5" _ eq_refl eq_refl H4) as H4'.
    assert (Js.isDigit c1 = true ∧ Js.isDigit c2 = true) as [D1 D2].
    { destruct H12 as [[A B]|[->%Ascii.eqb_eq B]]; split; try done.
      all: by eapply inRange_digit; [| |eassumption]. }
    digit_cases D1; digit_cases D2; try (by destruct H12 as [[? ?]|[? ?]]);
      digit_cases H4'; try discriminate H4;
      digit_cases H5; vm_compute; reflexivity.
Qed.

Lemma start_of_calendarDate (a : Appointment.t) :
  calendarDate (Appointment.date a) →
  Appointment.timePattern (Appointment.time a) = true →
  ∃ start, Appointment.appointmentDateTime a = Some start
           ∧ Appointment.date a ≤ start < Appointment.date a + Date.msPerDay.
Proof.
  intros Hcal Hpat%timePattern_parses. unfold Appointment.appointmentDateTime.
  destruct (Js.parseIntAt _ 0) as [h|]; [|done].
  destruct (Js.parseIntAt _ 1) as [m|]; [|done]. simpl.
  rewrite !andb_true_iff, !Z.leb_le in Hpat.
  eexists. split; [done|].
  unfold calendarDate in Hcal. unfold Date.setMinutes, Date.setHours.
  change Date.msPerDay with 86400000 in *.
  change Date.msPerHour with 3600000. change Date.msPerMinute with 60000.
  rewrite Hcal. change (0 / 3600000) with 0.
  replace (Appointment.date a - 0 * 3600000 + h * 3600000)
    with (Appointment.date a + h * 3600000) by lia.
  assert ((Appointment.date a + h * 3600000) mod 3600000 = 0) as ->.
  { apply Z.mod_divide in Hcal as [k Hk]; [|done]. rewrite Hk.
    replace (k * 86400000 + h * 3600000) with ((k * 24 + h) * 3600000) by lia.
    apply Z.mod_mul. done. }
  change (0 / 60000) with 0. lia.
Qed.

(** A creation request is either refused, with the store unchanged, or
    created from a date later than now in a document the validators accept. *)
Lemma createAppointment_cases now oid caller body s :
  ((createAppointment now oid caller body s).2 = s
   ∧ success (createAppointment now oid caller body s).1 = false)
  ∨ ∃ doctorId d time,
      b_doctorId body = Some doctorId
      ∧ b_date body = Some (Instant d)
      ∧ truthyString (b_time body) = Some time
      ∧ now < d
      ∧ Appointment.validate now
          (newAppointment now (callerId caller) doctorId d time body) = [].
Proof.
  unfold createAppointment.
  destruct (b_doctorId body) as [doctorId|]; [|by left].
  destruct (b_date body) as [[d|]|]; [| |by left].
  - destruct (truthyString (b_time body)) as [time|]; [|by left].
    destruct (findActiveDoctor _ _); [|by left].
    destruct (d <=? now) eqn:Hd; [by left|].
    apply Z.leb_gt in Hd.
    destruct (Appointment.save _ _ _ _ _) as [e|appts] eqn:E.
    + left. by destruct e.
    + apply save_inr in E as (Hv & _). right. by exists doctorId, d, time.
  - destruct (truthyString (b_time body)); [|by left].
    destruct (findActiveDoctor _ _); by left.
Qed.

Lemma createAppointment_created now oid caller body s :
  success (createAppointment now oid caller body s).1 = true
  ∨ (createAppointment now oid caller body s).2 ≠ s →
  ∃ doctorId d time,
    b_doctorId body = Some doctorId
    ∧ b_date body = Some (Instant d)
    ∧ truthyString (b_time body) = Some time
    ∧ now < d
    ∧ Appointment.validate now
        (newAppointment now (callerId caller) doctorId d time body) = [].
Proof.
  destruct (createAppointment_cases now oid caller body s) as [[Hs Hr]|H];
    [|done].
  rewrite Hs, Hr. by intros [|].
Qed.

(** C4, counterexample. At noon of a day, P1 asks for the date 23:00 of
    that day with the time "01:00". The date is later than now, so the
    request is answered 201 and the appointment is stored, at the handler
    and through the route; its start, the date with the hours and minutes
    of its time as [canBeCancelled] reads it, is 01:00 of that day, eleven
    hours before the submission. *)
Lemma appointment_starting_in_the_past_is_created :
  let a := newAppointment Sample.noon 2 1 Sample.lateEvening "01:00"
             Sample.lateEveningAtOne in
  code (createAppointment Sample.noon 10 Sample.asP1 Sample.lateEveningAtOne
          Sample.noBookings).1 = 201
  ∧ appointments (createAppointment Sample.noon 10 Sample.asP1
                    Sample.lateEveningAtOne Sample.noBookings).2 !! 10%N
    = Some a
  ∧ code (serve Sample.noon 2 (PostAppointment 10 Sample.lateEveningAtOne)
            Sample.noBookings).1 = 201
  ∧ appointments (serve Sample.noon 2 (PostAppointment 10 Sample.lateEveningAtOne)
                    Sample.noBookings).2 !! 10%N
    = Some a
  ∧ Appointment.appointmentDateTime a = Some (Sample.day + Date.msPerHour)
  ∧ Sample.day + Date.msPerHour < Sample.noon.
Proof. by vm_compute. Qed.

(** C4, amended. The check reads the date field alone. A creation request
    whose date is not later than the instant of submission is refused and
    nothing is stored, whoever the caller is (at the handler and at the
    route); once the request names its fields and an active doctor, the
    refusal is the 400 "Appointment date cannot be in the past". An
    appointment is created only from a date later than now. The time field
    is not compared with the clock: only when the date is a calendar date
    and the time has the HH:MM form does the same hold of the start (date
    plus time of day), where a start that is not later than now is refused
    and a created appointment starts after now. *)
Theorem past_date_never_created now oid caller body s :
  (∀ d, b_date body = Some (Instant d) →
        d ≤ now →
        (createAppointment now oid caller body s).2 = s
        ∧ success (createAppointment now oid caller body s).1 = false
        ∧ (∀ doctorId time,
              b_doctorId body = Some doctorId →
              truthyString (b_time body) = Some time →
              is_Some (findActiveDoctor (users s) doctorId) →
              (createAppointment now oid caller body s).1
              = fail 400 "Appointment date cannot be in the past")
        ∧ (∀ uid, (serve now uid (PostAppointment oid body) s).2 = s
                  ∧ success (serve now uid (PostAppointment oid body) s).1 = false))
  ∧ (success (createAppointment now oid caller body s).1 = true
     ∨ (createAppointment now oid caller body s).2 ≠ s →
     ∃ d, b_date body = Some (Instant d) ∧ now < d)
  ∧ (∀ a start,
        b_date body = Some (Instant (Appointment.date a)) →
        b_time body = Some (Appointment.time a) →
        calendarDate (Appointment.date a) →
        Appointment.timePattern (Appointment.time a) = true →
        Appointment.appointmentDateTime a = Some start →
        (start ≤ now →
         (createAppointment now oid caller body s).2 = s
         ∧ success (createAppointment now oid caller body s).1 = false)
        ∧ (success (createAppointment now oid caller body s).1 = true →
           now < start)).
Proof.
  assert (∀ c d, b_date body = Some (Instant d) → d ≤ now →
                 (createAppointment now oid c body s).2 = s
                 ∧ success (createAppointment now oid c body s).1 = false) as Hpast.
  { intros c d Hdate Hd.
    destruct (createAppointment_cases now oid c body s)
      as [?|(? & d' & ? & _ & Hd' & _ & Hlt & _)]; [done|].
    rewrite Hdate in Hd'. injection Hd' as <-. lia. }
  split_and!.
  - intros d Hdate Hd. destruct (Hpast caller d Hdate Hd) as [Hs Hr].
    split_and!; [done..| |].
    + intros doctorId time Hdoc Htime [u Hu]. unfold createAppointment.
      rewrite Hdoc, Hdate, Htime, Hu.
      by rewrite (proj2 (Z.leb_le d now) Hd).
    + intros uid. unfold serve.
      destruct (authenticateToken uid s) as [r|c] eqn:Htoken.
      { unfold authenticateToken in Htoken.
        destruct (users s !! uid) as [u|]; [destruct (negb _)|]; by simplify_eq. }
      destruct (authorizeRole patient c) as [r|] eqn:Hauth.
      * unfold authorizeRole in Hauth. destruct (decide _); [done|].
        by injection Hauth as <-.
      * apply (Hpast c d Hdate Hd).
  - intros (? & d & ? & _ & Hd & _ & Hlt & _)%createAppointment_created. eauto.
  - intros a start Hdate Htime Hcal Hpat Hstart.
    destruct (start_of_calendarDate a Hcal Hpat) as (start' & Hs' & Hle & _).
    rewrite Hstart in Hs'. injection Hs' as <-.
    split.
    + intros Hnow. apply (Hpast caller _ Hdate). lia.
    + intros Hok.
      destruct (createAppointment_created now oid caller body s (or_introl Hok))
        as (? & d & ? & _ & Hd & _ & Hlt & _).
      rewrite Hdate in Hd. injection Hd as <-. lia.
Qed.

(** A booking for the current day is refused; a booking for a day ten days
    ahead is created. *)
Lemma past_date_never_created_witness :
  (createAppointment Sample.day 10 Sample.asP1 (Sample.booking "10:00" None)
     Sample.noBookings).1
  = fail 400 "Appointment date cannot be in the past"
  ∧ ∃ d, b_date (Sample.booking "10:00" None) = Some (Instant d) ∧ Sample.early < d.
Proof.
  split.
  - destruct (past_date_never_created Sample.day 10%N Sample.asP1
                (Sample.booking "10:00" None) Sample.noBookings) as (Hpast & _).
    destruct (Hpast Sample.day eq_refl) as (_ & _ & Hmsg & _); [done|].
    apply (Hmsg 1%N "10:00"); [done|done|by eexists].
  - destruct (past_date_never_created Sample.early 10%N Sample.asP1
                (Sample.booking "10:00" None) Sample.noBookings) as (_ & Hnew & _).
    apply Hnew. left. by vm_compute.
Defined.

(** ** C5: the duration *)

(** C5, the failing input. A creation request that carries duration 0, a
    value the schema's minimum of 15 rejects, is answered 201 and the
    appointment is stored with duration 30. *)
Theorem zero_duration_is_booked_for_thirty_minutes :
  Appointment.validateDuration 0
  = ["Appointment duration must be at least 15 minutes"]
  ∧ code (createAppointment Sample.early 10 Sample.asP1
            (Sample.booking "10:00" (Some 0)) Sample.noBookings).1 = 201
  ∧ Appointment.duration <$>
      appointments (createAppointment Sample.early 10 Sample.asP1
                      (Sample.booking "10:00" (Some 0)) Sample.noBookings).2 !! 10%N
    = Some 30.
Proof. by vm_compute. Qed.

(** The boundaries 15 and 120 are accepted and stored as they are, and a
    request without a duration is stored with 30. *)
Lemma duration_boundaries_and_default :
  Appointment.duration <$>
    appointments (createAppointment Sample.early 10 Sample.asP1
                    (Sample.booking "10:00" (Some 15)) Sample.noBookings).2 !! 10%N
  = Some 15
  ∧ Appointment.duration <$>
      appointments (createAppointment Sample.early 10 Sample.asP1
                      (Sample.booking "10:00" (Some 120)) Sample.noBookings).2 !! 10%N
    = Some 120
  ∧ Appointment.duration <$>
      appointments (createAppointment Sample.early 10 Sample.asP1
                      (Sample.booking "10:00" None) Sample.noBookings).2 !! 10%N
    = Some 30.
Proof. by vm_compute. Qed.

(** Every other duration reaches the schema's range check: outside 15..120
    the request is refused and nothing is stored. *)
Lemma nonzero_duration_out_of_range_refused now oid caller body s d :
  b_duration body = Some d →
  d ≠ 0 →
  d < 15 ∨ 120 < d →
  (createAppointment now oid caller body s).2 = s
  ∧ success (createAppointment now oid caller body s).1 = false.
Proof.
  intros Hdur Hnz Hout.
  destruct (createAppointment_cases now oid caller body s)
    as [?|(doctorId & d' & time & _ & _ & _ & _ & Hv)]; [done|].
  unfold Appointment.validate, Appointment.validateRest in Hv.
  repeat apply app_eq_nil in Hv as [_ Hv].
  simpl in Hv. unfold durationOrDefault in Hv. rewrite Hdur in Hv.
  rewrite (proj2 (Z.eqb_neq d 0) Hnz) in Hv.
  unfold Appointment.validateDuration in Hv.
  destruct (d <? 15) eqn:H15; [done|]. destruct (120 <? d) eqn:H120; [done|].
  apply Z.ltb_ge in H15, H120. lia.
Qed.

(** ** C6: listing *)

Section Listing.
Implicit Types (s : State) (a : Appointment.t) (caller : Caller) (q : ListQuery).

Lemma findAll_spec (P : N → Appointment.t → bool) (appts : gmap N Appointment.t) j b :
  (j, b) ∈ Appointment.findAll P appts ↔ appts !! j = Some b ∧ P j b = true.
Proof.
  unfold Appointment.findAll.
  rewrite list_elem_of_In, List.filter_In, <- list_elem_of_In, elem_of_map_to_list.
  done.
Qed.

Lemma listFilter_spec caller q start j a :
  listFilter caller q start j a = true ↔
  visibleTo caller a ∧ statusFilter q a = true ∧ dateFilter start a = true.
Proof.
  unfold listFilter. rewrite !andb_true_iff, inScope_visibleTo. tauto.
Qed.

Lemma sortByDateTime_elem_of (l : list (N * Appointment.t)) x :
  x ∈ sortByDateTime l ↔ x ∈ l.
Proof. unfold sortByDateTime. by rewrite merge_sort_Permutation. Qed.

Lemma sortByDateTime_length (l : list (N * Appointment.t)) :
  length (sortByDateTime l) = length l.
Proof. unfold sortByDateTime. by rewrite merge_sort_Permutation. Qed.

Lemma sortByDateTime_NoDup (l : list (N * Appointment.t)) :
  NoDup l → NoDup (sortByDateTime l).
Proof. unfold sortByDateTime. by rewrite merge_sort_Permutation. Qed.

Lemma findAll_NoDup (P : N → Appointment.t → bool) (appts : gmap N Appointment.t) :
  NoDup (Appointment.findAll P appts).
Proof.
  unfold Appointment.findAll. apply NoDup_ListNoDup, List.NoDup_filter,
    NoDup_ListNoDup, NoDup_map_to_list.
Qed.

Lemma findAll_length (P : N → Appointment.t → bool) (appts : gmap N Appointment.t) :
  (length (Appointment.findAll P appts) ≤ size appts)%nat.
Proof.
  unfold Appointment.findAll. rewrite <- length_map_to_list.
  apply List.filter_length_le.
Qed.

(** The first page is never refused: its [skip] is 0. *)
Lemma skip_drop {A} (k : Z) (docs : list A) :
  Query.skip k docs = drop (Z.to_nat k) docs.
Proof.
  revert k. induction docs as [|doc rest IH]; intros k; simpl.
  { by rewrite drop_nil. }
  destruct (k <=? 0) eqn:Hk.
  - apply Z.leb_le in Hk. by replace (Z.to_nat k) with 0%nat by lia.
  - apply Z.leb_gt in Hk. rewrite IH.
    by replace (Z.to_nat k) with (S (Z.to_nat (k - 1))) by lia.
Qed.

Lemma limit_take {A} (n : Z) (docs : list A) :
  Query.limit n docs = take (Z.to_nat n) docs.
Proof.
  revert n. induction docs as [|doc rest IH]; intros n; simpl.
  { by rewrite take_nil. }
  destruct (n <=? 0) eqn:Hn.
  - apply Z.leb_le in Hn. by replace (Z.to_nat n) with 0%nat by lia.
  - apply Z.leb_gt in Hn. rewrite IH.
    by replace (Z.to_nat n) with (S (Z.to_nat (n - 1))) by lia.
Qed.

Lemma first_page_skip (l : Z) : numberOr 0 (skipOf (Num 1) (Num l)) = Num 0.
Proof. reflexivity. Qed.

(** The documents a listing draws from, in the order of the sort: each
    appointment of the store that is in the caller's scope and passes the
    filters, once. *)
Lemma listed_documents caller q s :
  let all := sortByDateTime
               (Appointment.findAll (listFilter caller q (listStart q)) (appointments s)) in
  NoDup all
  ∧ (length all ≤ size (appointments s))%nat
  ∧ ∀ id a, (id, a) ∈ all ↔
            appointments s !! id = Some a ∧ visibleTo caller a
            ∧ statusFilter q a = true ∧ dateFilter (listStart q) a = true.
Proof.
  simpl. split_and!.
  - apply sortByDateTime_NoDup, findAll_NoDup.
  - rewrite sortByDateTime_length. apply findAll_length.
  - intros id a. by rewrite sortByDateTime_elem_of, findAll_spec, listFilter_spec.
Qed.

(** What an answered listing is made of. *)
Lemma getAppointments_answered now caller q s vs pg :
  (getAppointments now caller q s).1 = ok 200 None (AppointmentList vs pg) →
  ∃ l k,
    numberOr 50 (parsedOr 20 (q_limit q)) = Num l
    ∧ numberOr 0 (skipOf (parsedOr 1 (q_page q)) (parsedOr 20 (q_limit q))) = Num k
    ∧ 0 ≤ k
    ∧ vs = (λ kv, view now (users s) kv.1 kv.2)
           <$> take (Z.to_nat (Z.abs l))
                 (drop (Z.to_nat k)
                    (sortByDateTime
                       (Appointment.findAll (listFilter caller q (listStart q))
                          (appointments s))))
    ∧ pg = mkPagination (Js.toJSON (parsedOr 1 (q_page q)))
             (Js.toJSON
                (totalPagesOf
                   (Z.of_nat (length (Appointment.findAll
                                        (listFilter caller q (listStart q))
                                        (appointments s))))
                   (parsedOr 20 (q_limit q))))
             (Z.of_nat (length (Appointment.findAll
                                  (listFilter caller q (listStart q))
                                  (appointments s))))
             (Js.ltb (Js.add (skipOf (parsedOr 1 (q_page q)) (parsedOr 20 (q_limit q)))
                             (Z.of_nat (length vs)))
                     (Z.of_nat (length (Appointment.findAll
                                          (listFilter caller q (listStart q))
                                          (appointments s)))))
             (Js.gtb (parsedOr 1 (q_page q)) 1).
Proof.
  unfold getAppointments, listStart.
  destruct (q_date q) as [[d|]|]; [|done|];
    unfold getAppointmentsWithUsers;
    (destruct (numberOr 50 _) as [l| | |]; [|done..]);
    (destruct (numberOr 0 _) as [k| | |]; [|done..]);
    (destruct (k <? 0) eqn:Hk; [done|]); apply Z.ltb_ge in Hk;
    simpl; intros [= <- <-]; exists l, k;
    rewrite length_fmap, limit_take, skip_drop; by split_and!.
Qed.

End Listing.

(** C6. An answered listing is the page of the caller's own appointments:
    the appointments of the store that are in the caller's scope (the
    caller's own as a patient, the caller's own as a doctor, every one for
    an admin) and pass the status and date filters, each once, in the order
    of the sort, cut to the entries from [skip] on and at most [limit] of
    them; the total it reports is their number. So a page holds only such
    appointments, and it holds every one of them when [skip] is 0 and their
    number (or the size of the store) is within the limit. With the default
    page and a limit that is a number the listing is always answered, and
    with the default page and limit and a store of at most 20 appointments
    the entries are exactly the views of the appointments in scope that
    pass the filters. *)
Theorem listing_is_scoped now caller q s :
  (q_date q ≠ Some InvalidDate →
   q_page q = None →
   ∀ l, parsedOr 20 (q_limit q) = Num l →
        ∃ vs pg,
          getAppointments now caller q s = (ok 200 None (AppointmentList vs pg), s))
  ∧ (∀ vs pg,
        (getAppointments now caller q s).1 = ok 200 None (AppointmentList vs pg) →
        ∃ (all : list (N * Appointment.t)) (l k : Z),
          numberOr 50 (parsedOr 20 (q_limit q)) = Num l
          ∧ numberOr 0 (skipOf (parsedOr 1 (q_page q)) (parsedOr 20 (q_limit q)))
            = Num k
          ∧ 0 ≤ k
          ∧ NoDup all
          ∧ (∀ id a, (id, a) ∈ all ↔
                     appointments s !! id = Some a
                     ∧ visibleTo caller a
                     ∧ statusFilter q a = true
                     ∧ dateFilter (listStart q) a = true)
          ∧ vs = (λ kv, view now (users s) kv.1 kv.2)
                 <$> take (Z.to_nat (Z.abs l)) (drop (Z.to_nat k) all)
          ∧ totalAppointments pg = Z.of_nat (length all)
          ∧ (∀ v, v ∈ vs →
                  ∃ id a, appointments s !! id = Some a
                          ∧ v = view now (users s) id a
                          ∧ visibleTo caller a
                          ∧ statusFilter q a = true
                          ∧ dateFilter (listStart q) a = true)
          ∧ (k = 0 →
             Z.of_nat (length all) ≤ Z.abs l
             ∨ Z.of_nat (size (appointments s)) ≤ Z.abs l →
             ∀ id a, appointments s !! id = Some a →
                     visibleTo caller a →
                     statusFilter q a = true →
                     dateFilter (listStart q) a = true →
                     view now (users s) id a ∈ vs))
  ∧ (q_date q ≠ Some InvalidDate →
     q_page q = None →
     q_limit q = None →
     (size (appointments s) ≤ 20)%nat →
     ∃ vs pg,
       getAppointments now caller q s = (ok 200 None (AppointmentList vs pg), s)
       ∧ ∀ v, v ∈ vs ↔
              ∃ id a, appointments s !! id = Some a
                      ∧ v = view now (users s) id a
                      ∧ visibleTo caller a
                      ∧ statusFilter q a = true
                      ∧ dateFilter (listStart q) a = true).
Proof.
  assert (∀ vs pg,
    (getAppointments now caller q s).1 = ok 200 None (AppointmentList vs pg) →
    ∃ (all : list (N * Appointment.t)) (l k : Z),
      numberOr 50 (parsedOr 20 (q_limit q)) = Num l
      ∧ numberOr 0 (skipOf (parsedOr 1 (q_page q)) (parsedOr 20 (q_limit q)))
        = Num k
      ∧ 0 ≤ k
      ∧ NoDup all
      ∧ (∀ id a, (id, a) ∈ all ↔
                 appointments s !! id = Some a
                 ∧ visibleTo caller a
                 ∧ statusFilter q a = true
                 ∧ dateFilter (listStart q) a = true)
      ∧ vs = (λ kv, view now (users s) kv.1 kv.2)
             <$> take (Z.to_nat (Z.abs l)) (drop (Z.to_nat k) all)
      ∧ totalAppointments pg = Z.of_nat (length all)
      ∧ (∀ v, v ∈ vs →
              ∃ id a, appointments s !! id = Some a
                      ∧ v = view now (users s) id a
                      ∧ visibleTo caller a
                      ∧ statusFilter q a = true
                      ∧ dateFilter (listStart q) a = true)
      ∧ (k = 0 →
         Z.of_nat (length all) ≤ Z.abs l
         ∨ Z.of_nat (size (appointments s)) ≤ Z.abs l →
         ∀ id a, appointments s !! id = Some a →
                 visibleTo caller a →
                 statusFilter q a = true →
                 dateFilter (listStart q) a = true →
                 view now (users s) id a ∈ vs)) as Hpage.
  { intros vs pg (l & k & Hl & Hk & Hk0 & Hvs & Hpg)%getAppointments_answered.
    destruct (listed_documents caller q s) as (Hnodup & Hsize & Hall).
    set (all := sortByDateTime _) in *.
    exists all, l, k. split_and!; try done.
    - rewrite Hpg. simpl. unfold all. by rewrite sortByDateTime_length.
    - intros v. rewrite Hvs.
      intros ([id a] & -> & Hin%subseteq_take%subseteq_drop)%list_elem_of_fmap.
      apply Hall in Hin as (? & ? & ? & ?). by exists id, a.
    - intros -> Hfit id a Hid Hvis Hst Hdt. rewrite Hvs.
      apply (list_elem_of_fmap_2 (λ kv, view now (users s) kv.1 kv.2) _ (id, a)).
      rewrite drop_0, take_ge by lia. by apply Hall. }
  split_and!.
  - intros Hdate Hpage' l Hl. unfold getAppointments.
    rewrite Hpage', Hl. simpl parsedOr.
    destruct (q_date q) as [[d|]|]; [|done|];
      unfold getAppointmentsWithUsers; rewrite first_page_skip;
      destruct (numberOr 50 (Num l)) as [l'| | |] eqn:E;
      try (by unfold numberOr in E; destruct (l =? 0)); simpl; eauto.
  - exact Hpage.
  - intros Hdate Hpage' Hlimit Hsmall.
    assert (∃ vs pg, getAppointments now caller q s
                     = (ok 200 None (AppointmentList vs pg), s))
      as (vs & pg & Hresp).
    { unfold getAppointments. rewrite Hpage', Hlimit. simpl parsedOr.
      destruct (q_date q) as [[d|]|]; [|done|]; simpl; eauto. }
    exists vs, pg. split; [done|].
    destruct (Hpage vs pg) as (all & l & k & Hl & Hk & _ & _ & _ & _ & _ & Hin & Hall);
      [by rewrite Hresp|].
    rewrite Hlimit in Hl. rewrite Hpage', Hlimit in Hk.
    injection Hl as <-. injection Hk as <-.
    intros v. split; [apply Hin|].
    intros (id & a & Hid & -> & Hvis & Hst & Hdt).
    apply Hall; [done|right; lia|done..].
Qed.

(** In the store where P1's cancelled appointment 10 and P2's appointment 11
    stand side by side, P1's listing is answered and holds appointment 10,
    and nothing else. *)
Lemma listing_is_scoped_witness :
  ∃ vs pg,
    getAppointments Sample.early Sample.asP1 (mkListQuery None None None None)
      Sample.rebooked = (ok 200 None (AppointmentList vs pg), Sample.rebooked)
    ∧ view Sample.early Sample.people 10
        (Appointment.setStatus Sample.atTen cancelled) ∈ vs
    ∧ view Sample.early Sample.people 11 Sample.atTenP2 ∉ vs.
Proof.
  destruct (listing_is_scoped Sample.early Sample.asP1
              (mkListQuery None None None None) Sample.rebooked) as (_ & _ & Hexact).
  destruct Hexact as (vs & pg & Hresp & Hvs); [done|done|done|vm_compute; lia|].
  exists vs, pg. split; [exact Hresp|]. split.
  - apply Hvs. exists 10%N, (Appointment.setStatus Sample.atTen cancelled).
    split; [reflexivity|]. split; [reflexivity|]. split; [reflexivity|].
    split; reflexivity.
  - intros (id & a & Hid & Hview & Hvis & _)%Hvs.
    assert (id = 11%N) as -> by (by injection Hview).
    vm_compute in Hid. injection Hid as <-. vm_compute in Hvis. discriminate.
Defined.

(** * Further properties of the handlers *)

(** ** What a request can do to the store *)

Lemma sameBooking_refl a : sameBooking a a.
Proof. by split_and!. Qed.

Lemma sameBooking_trans a b c : sameBooking a b → sameBooking b c → sameBooking a c.
Proof.
  unfold sameBooking. intros (?&?&?&?&?&?&?&?&?) (?&?&?&?&?&?&?&?&?).
  split_and!; congruence.
Qed.

(** One request leaves the appointments alone, or adds one document under
    an id that was free (for an active patient, as that patient, pending),
    or writes a new status into a stored document; the users change at most
    in one [isActive] flag. *)
Lemma serve_step now uid req s :
  (appointments (serve now uid req s).2 = appointments s
   ∨ (∃ oid a u,
         appointments s !! oid = None
         ∧ appointments (serve now uid req s).2 = <[oid := a]> (appointments s)
         ∧ users s !! uid = Some u ∧ User.role u = patient
         ∧ User.isActive u = true
         ∧ Appointment.patientId a = uid
         ∧ Appointment.status a = pending)
   ∨ (∃ id a st,
         appointments s !! id = Some a
         ∧ appointments (serve now uid req s).2
           = <[id := Appointment.written now (Some a) (Appointment.setStatus a st)]>
               (appointments s)))
  ∧ (users (serve now uid req s).2 = users s
     ∨ ∃ target u b,
         users s !! target = Some u
         ∧ users (serve now uid req s).2
           = <[target := User.setActive u b now]> (users s)).
Proof.
  unfold serve, authenticateToken.
  destruct (users s !! uid) as [u|] eqn:Hu; [|by split; left].
  destruct (User.isActive u) eqn:Hact; simpl; [|by split; left].
  destruct req as [oid body|q|id|id st|id|userId isActive].
  - unfold authorizeRole. simpl.
    destruct (decide (User.role u = patient)) as [Hrole|]; [|by split; left].
    unfold createAppointment.
    destruct (b_doctorId body), (b_date body) as [[d|]|],
      (truthyString (b_time body)); try by split; left.
    + destruct (findActiveDoctor _ _); [|by split; left].
      destruct (d <=? now); [by split; left|].
      destruct (Appointment.save _ _ _ _ _) as [e|appts] eqn:E; [by split; left|].
      apply save_inr in E as (_ & _ & Hnew & ->). simpl.
      split; [|by left]. right. left. eexists oid, _, u.
      split_and!; [by apply Hnew|done..].
    + destruct (findActiveDoctor _ _); by split; left.
  - unfold getAppointments. destruct (q_date q) as [[d|]|]; try by split; left.
    + destruct (getAppointmentsWithUsers _ _ _ _); by split; left.
    + destruct (getAppointmentsWithUsers _ _ _ _); by split; left.
  - unfold getAppointmentById.
    destruct (Appointment.findOne _ _) as [[??]|]; by split; left.
  - unfold updateAppointmentStatus.
    destruct (parseStatus st) as [st'|]; [|by split; left].
    destruct (appointments s !! id) as [a|] eqn:Ha; [|by split; left].
    destruct (accessDenied _ _); [by split; left|].
    destruct (Appointment.save _ _ _ _ _) as [e|appts] eqn:E; [by split; left|].
    apply save_inr in E as (_ & _ & _ & ->). simpl.
    split; [|by left]. right. right. by exists id, a, st'.
  - unfold cancelAppointment.
    destruct (appointments s !! id) as [a|] eqn:Ha; [|by split; left].
    destruct (accessDenied _ _); [by split; left|].
    destruct (negb _); [by split; left|].
    destruct (Appointment.save _ _ _ _ _) as [e|appts] eqn:E; [by split; left|].
    apply save_inr in E as (_ & _ & _ & ->). simpl.
    split; [|by left]. right. right. by exists id, a, cancelled.
  - unfold authorizeRole. simpl.
    destruct (decide (User.role u = admin)); [|by split; left].
    unfold updateUserStatus. simpl.
    destruct (negb _); [by split; left|].
    destruct (users s !! userId) as [t|] eqn:Ht; [|by split; left].
    destruct (bool_decide _); [by split; left|]. simpl.
    split; [by left|]. right. by exists userId, t, isActive.
Qed.

(** X1. No request removes an appointment or moves it: along every
    sequential execution, an appointment of the store stays in the store
    under its id with the patient, doctor, date, time, duration, notes,
    symptoms, urgency flag and creation time it had. *)
Theorem appointments_are_never_removed_or_moved trace s id a :
  appointments s !! id = Some a →
  ∃ a', appointments (run trace s) !! id = Some a' ∧ sameBooking a a'.
Proof.
  revert s a. induction trace as [|[[now uid] req] rest IH]; intros s a Ha.
  { exists a. split; [done|apply sameBooking_refl]. }
  simpl.
  assert (∃ b, appointments (serve now uid req s).2 !! id = Some b
               ∧ sameBooking a b) as (b & Hb & Hab).
  { destruct (serve_step now uid req s)
      as [[->|[(oid & n & u & Hfree & -> & _)|(j & c & st & Hj & ->)]] _].
    - exists a. split; [done|apply sameBooking_refl].
    - exists a. split; [|apply sameBooking_refl].
      rewrite lookup_insert_ne; [done|]. intros ->. congruence.
    - destruct (decide (j = id)) as [->|Hne].
      + rewrite lookup_insert_eq. eexists. split; [done|].
        rewrite Ha in Hj. injection Hj as <-. apply sameBooking_written.
      + rewrite lookup_insert_ne by done. exists a.
        split; [done|apply sameBooking_refl]. }
  destruct (IH _ _ Hb) as (a' & Ha' & Hba').
  exists a'. split; [done|]. by eapply sameBooking_trans.
Qed.

(** P1's appointment survives a cancellation, a reopening by the admin and
    P2's booking of another slot with its booking fields intact. *)
Lemma appointments_are_never_removed_or_moved_witness :
  ∃ a', appointments
          (run [(Sample.early, 2%N, PostAppointmentCancel 10);
                (Sample.early, 4%N, PatchAppointmentStatus 10 "confirmed");
                (Sample.early, 3%N, PostAppointment 11 (Sample.booking "11:00" None))]
             Sample.oneBooking) !! 10%N = Some a'
        ∧ sameBooking Sample.atTen a'.
Proof.
  apply (appointments_are_never_removed_or_moved _ Sample.oneBooking 10%N Sample.atTen).
  reflexivity.
Defined.

(** ** Accounts and bookings *)



(** X3. A slot freed by a cancellation can be booked again: after
    [cancelAppointment] has succeeded on an appointment, a creation request
    of any patient for the same doctor, date and time is answered 201, once
    it passes the checks every creation passes (an active doctor, a date
    later than now, a document the validators accept, a fresh id). *)
Theorem cancelled_slot_can_be_rebooked now now' caller id s a oid caller' body :
  appointments s !! id = Some a →
  success (cancelAppointment now caller id s).1 = true →
  b_doctorId body = Some (Appointment.doctorId a) →
  b_date body = Some (Instant (Appointment.date a)) →
  truthyString (b_time body) = Some (Appointment.time a) →
  is_Some (findActiveDoctor (users s) (Appointment.doctorId a)) →
  now' < Appointment.date a →
  Appointment.validate now'
    (newAppointment now' (callerId caller') (Appointment.doctorId a)
       (Appointment.date a) (Appointment.time a) body) = [] →
  appointments s !! oid = None →
  code (createAppointment now' oid caller' body (cancelAppointment now caller id s).2).1
  = 201.
Proof.
  intros Ha Hok Hdoc Hdate Htime [u Hu] Hlt Hv Hfresh.
  unfold cancelAppointment in *. rewrite Ha in *.
  destruct (accessDenied caller a); [done|].
  destruct (negb _); [done|].
  destruct (Appointment.save _ _ _ _ _) as [e|appts] eqn:E; [done|].
  apply save_inr in E as (_ & Hfree & _ & ->). simpl.
  unfold createAppointment. simpl. rewrite Hdoc, Hdate, Htime, Hu.
  rewrite (proj2 (Z.leb_gt _ _) Hlt).
  rewrite save_ok; [done|done| |].
  - apply preSave_None. apply preSave_None in Hfree.
    intros (j & b & Hj & Hjo & Hslot & Hst).
    destruct (decide (j = id)) as [->|Hne].
    + rewrite lookup_insert_eq in Hj. injection Hj as <-.
      apply Hst. unfold Appointment.touch. by destruct (decide _).
    + rewrite lookup_insert_ne in Hj by done.
      apply Hfree. exists j, b. split_and!; done.
  - intros _. rewrite lookup_insert_ne; [done|]. intros ->. congruence.
Qed.

(** The scenario of the specification: P1 cancels the 10:00 booking, P2
    books it. *)
Lemma cancelled_slot_can_be_rebooked_witness :
  code (createAppointment Sample.early 11 Sample.asP2 (Sample.booking "10:00" None)
          (cancelAppointment Sample.early Sample.asP1 10 Sample.oneBooking).2).1
  = 201.
Proof.
  apply (cancelled_slot_can_be_rebooked Sample.early Sample.early Sample.asP1 10%N
           Sample.oneBooking Sample.atTen 11%N Sample.asP2
           (Sample.booking "10:00" None));
    first [done | by vm_compute | by eexists].
Defined.

(** X4. What is created can be read back: when [createAppointment] answers
    201 the store holds, under the new id, a pending appointment of the
    caller with the requested doctor, created at the instant of the
    request, and [getAppointmentById] returns it (200) to every caller
    whose scope holds it. *)
Theorem created_appointment_is_stored_and_readable now oid caller body s :
  success (createAppointment now oid caller body s).1 = true →
  ∃ a, appointments (createAppointment now oid caller body s).2 !! oid = Some a
       ∧ Appointment.patientId a = callerId caller
       ∧ b_doctorId body = Some (Appointment.doctorId a)
       ∧ b_date body = Some (Instant (Appointment.date a))
       ∧ Appointment.status a = pending
       ∧ Appointment.createdAt a = now
       ∧ ∀ now' reader,
           visibleTo reader a →
           getAppointmentById now' reader oid (createAppointment now oid caller body s).2
           = (ok 200 None
                (AppointmentData
                   (view now' (users (createAppointment now oid caller body s).2) oid a)),
              (createAppointment now oid caller body s).2).
Proof.
  unfold createAppointment.
  destruct (b_doctorId body) as [doctorId|]; [|done].
  destruct (b_date body) as [[d|]|]; [| |done].
  2:{ destruct (truthyString _); [|done]. by destruct (findActiveDoctor _ _). }
  destruct (truthyString (b_time body)) as [time|]; [|done].
  destruct (findActiveDoctor _ _); [|done].
  destruct (d <=? now); [done|].
  destruct (Appointment.save _ _ _ _ _) as [e|appts] eqn:E; [by destruct e|].
  apply save_inr in E as (_ & _ & _ & ->). intros _. simpl.
  eexists. split; [apply lookup_insert_eq|]. split_and!; [done..|].
  intros now' reader Hvis%inScope_visibleTo.
  unfold getAppointmentById. simpl.
  rewrite findOne_byId, lookup_insert_eq. simpl in *. by rewrite Hvis.
Qed.

Lemma created_appointment_is_stored_and_readable_witness :
  ∃ a, appointments
         (createAppointment Sample.early 10 Sample.asP1 (Sample.booking "10:00" None)
            Sample.noBookings).2 !! 10%N = Some a
       ∧ Appointment.patientId a = 2%N
       ∧ Appointment.status a = pending.
Proof.
  destruct (created_appointment_is_stored_and_readable Sample.early 10%N Sample.asP1
              (Sample.booking "10:00" None) Sample.noBookings)
    as (a & Ha & Hp & _ & _ & Hst & _); [by vm_compute|].
  exists a. split; [exact Ha|]. split; [exact Hp|exact Hst].
Defined.

(** X5. Only patients book, and only for themselves: a creation request
    through the route by a user who is not an active patient changes
    nothing, and a store in which every appointment is booked for a user
    with role patient stays so along every sequential execution. *)
Theorem only_patients_book :
  (∀ now uid oid body s u,
      users s !! uid = Some u →
      User.role u ≠ patient →
      (serve now uid (PostAppointment oid body) s).2 = s
      ∧ success (serve now uid (PostAppointment oid body) s).1 = false)
  ∧ (∀ trace s, bookedByPatients s → bookedByPatients (run trace s)).
Proof.
  split.
  - intros now uid oid body s u Hu Hrole. unfold serve, authenticateToken.
    rewrite Hu. destruct (negb (User.isActive u)); [done|].
    unfold authorizeRole. simpl. by rewrite decide_False.
  - intros trace. induction trace as [|[[now uid] req] rest IH]; intros s Hinv; [done|].
    simpl. apply IH. clear IH.
    destruct (serve_step now uid req s) as [Happts Husers].
    assert (∀ k u, users s !! k = Some u →
                   ∃ u', users (serve now uid req s).2 !! k = Some u'
                         ∧ User.role u' = User.role u) as Hroles.
    { intros k u Hk. destruct Husers as [->|(t & v & b & Ht & ->)]; [eauto|].
      destruct (decide (t = k)) as [->|Hne].
      - rewrite lookup_insert_eq. eexists. split; [done|].
        rewrite Hk in Ht. by injection Ht as <-.
      - rewrite lookup_insert_ne by done. eauto. }
    intros id a Ha.
    assert (∃ u, users s !! Appointment.patientId a = Some u
                 ∧ User.role u = patient) as (u & Hu & Hrole).
    { destruct Happts as [Heq|[(oid & n & u & _ & Heq & Hu & Hrole & _ & Hpid & _)
                               |(j & c & st & Hj & Heq)]]; rewrite Heq in Ha.
      - by apply (Hinv id).
      - destruct (decide (oid = id)) as [->|Hne].
        + rewrite lookup_insert_eq in Ha. injection Ha as <-.
          rewrite Hpid. eauto.
        + rewrite lookup_insert_ne in Ha by done. by apply (Hinv id).
      - destruct (decide (j = id)) as [->|Hne].
        + rewrite lookup_insert_eq in Ha. injection Ha as <-.
          destruct (sameBooking_written now c st) as (Hpid & _).
          simpl in Hpid. rewrite Hpid. by apply (Hinv id).
        + rewrite lookup_insert_ne in Ha by done. by apply (Hinv id). }
    destruct (Hroles _ _ Hu) as (u' & Hu' & Hr'). exists u'. split; [done|congruence].
Qed.

Lemma only_patients_book_witness :
  (serve Sample.early 1 (PostAppointment 10 (Sample.booking "10:00" None))
     Sample.noBookings).2 = Sample.noBookings
  ∧ bookedByPatients
      (run [(Sample.early, 2%N, PostAppointment 10 (Sample.booking "10:00" None));
            (Sample.early, 4%N, PatchUserStatus 2 false)]
         Sample.noBookings).
Proof.
  destruct only_patients_book as [Hrefused Hkept]. split.
  - by apply (Hrefused Sample.early 1%N 10%N (Sample.booking "10:00" None)
                Sample.noBookings Sample.drA).
  - apply Hkept. intros id a Ha. simpl in Ha. by rewrite lookup_empty in Ha.
Defined.

(** ** Pages of a listing *)



(** The page of an answered listing, cut out of the sorted matches. *)
Lemma getAppointments_page now caller q s vs pg :
  (getAppointments now caller q s).1 = ok 200 None (AppointmentList vs pg) →
  ∃ l k,
    numberOr 50 (parsedOr 20 (q_limit q)) = Num l
    ∧ numberOr 0 (skipOf (parsedOr 1 (q_page q)) (parsedOr 20 (q_limit q))) = Num k
    ∧ 0 ≤ k
    ∧ vs = (λ kv, view now (users s) kv.1 kv.2)
           <$> take (Z.to_nat (Z.abs l))
                 (drop (Z.to_nat k) (sortByDateTime (matching caller q s)))
    ∧ totalAppointments pg = Z.of_nat (length (matching caller q s))
    ∧ hasNextPage pg
      = Js.ltb (Js.add (skipOf (parsedOr 1 (q_page q)) (parsedOr 20 (q_limit q)))
                       (Z.of_nat (length vs)))
               (Z.of_nat (length (matching caller q s))).
Proof.
  intros (l & k & Hl & Hk & Hk0 & Hvs & ->)%getAppointments_answered.
  exists l, k. by split_and!.
Qed.



(** X7. A page never holds more entries than the limit the store is given
    (the absolute value of the parsed limit, and 50 when that is 0 or not a
    number), so at most 20 when the query gives no limit, nor more than the
    total it reports; and the reported total is the number of appointments
    that match the filters: it does not depend on the page or the limit. *)
Theorem listing_page_is_bounded now caller q s vs pg :
  (getAppointments now caller q s).1 = ok 200 None (AppointmentList vs pg) →
  (∃ l, numberOr 50 (parsedOr 20 (q_limit q)) = Num l
        ∧ Z.of_nat (length vs) ≤ Z.abs l)
  ∧ (q_limit q = None → Z.of_nat (length vs) ≤ 20)
  ∧ (parsedOr 20 (q_limit q) = Num 0 ∨ parsedOr 20 (q_limit q) = NaN →
     Z.of_nat (length vs) ≤ 50)
  ∧ Z.of_nat (length vs) ≤ totalAppointments pg
  ∧ totalAppointments pg = Z.of_nat (length (matching caller q s))
  ∧ ∀ now' q' vs' pg',
      q_status q' = q_status q →
      q_date q' = q_date q →
      (getAppointments now' caller q' s).1 = ok 200 None (AppointmentList vs' pg') →
      totalAppointments pg' = totalAppointments pg.
Proof.
  intros (l & k & Hl & _ & _ & -> & Htotal & _)%getAppointments_page.
  rewrite length_fmap, length_take, length_drop, sortByDateTime_length.
  split_and!.
  - exists l. split; [done|lia].
  - intros Hnone. rewrite Hnone in Hl. injection Hl as <-. lia.
  - intros [Hz|Hz]; rewrite Hz in Hl; injection Hl as <-; lia.
  - lia.
  - done.
  - intros now' q' vs' pg' Hst Hdt
      (? & ? & _ & _ & _ & _ & Htotal' & _)%getAppointments_page.
    rewrite Htotal, Htotal'. unfold matching, listStart, listFilter, statusFilter.
    by rewrite Hst, Hdt.
Qed.

Lemma listing_page_is_bounded_witness :
  ∃ vs pg,
    (getAppointments Sample.early Sample.asRoot
       (mkListQuery None None (Some "0x1") None) Sample.rebooked).1
    = ok 200 None (AppointmentList vs pg)
    ∧ Z.of_nat (length vs) ≤ 1
    ∧ totalAppointments pg = 2.
Proof.
  eexists _, _. split; [by vm_compute|].
  edestruct (listing_page_is_bounded Sample.early Sample.asRoot
               (mkListQuery None None (Some "0x1") None) Sample.rebooked)
    as ((l & Hl & Hcap) & _ & _ & _ & Htotal & _); [by vm_compute|].
  injection Hl as <-. split; [exact Hcap|exact Htotal].
Defined.

(** X8. For a limit of at least 1 and a page of at least 1, whose product
    is a number the arithmetic of the handler keeps exact (below 2^53),
    [hasNextPage] is true exactly when the next page of the same query
    holds an entry. *)
Theorem hasNextPage_iff_next_page_holds_an_entry
    now caller q q' s l p vs pg vs' pg' :
  parsedOr 20 (q_limit q) = Num l →
  parsedOr 1 (q_page q) = Num p →
  1 ≤ l → 1 ≤ p → p * l < 2 ^ 53 →
  q_status q' = q_status q →
  q_date q' = q_date q →
  q_limit q' = q_limit q →
  parsedOr 1 (q_page q') = Num (p + 1) →
  (getAppointments now caller q s).1 = ok 200 None (AppointmentList vs pg) →
  (getAppointments now caller q' s).1 = ok 200 None (AppointmentList vs' pg') →
  hasNextPage pg = true ↔ vs' ≠ [].
Proof.
  intros Hl Hp Hl1 Hp1 Hsmall Hst Hdt Hlim Hp'
    (l1 & k1 & Hl1' & Hk1 & _ & -> & _ & ->)%getAppointments_page
    (l2 & k2 & Hl2' & Hk2 & _ & -> & _)%getAppointments_page.
  assert (matching caller q' s = matching caller q s) as ->.
  { unfold matching, listStart, listFilter, statusFilter. by rewrite Hst, Hdt. }
  rewrite Hlim in Hl2', Hk2. rewrite Hl in Hl1', Hl2', Hk1, Hk2 |- *.
  rewrite Hp in Hk1 |- *. rewrite Hp' in Hk2.
  assert (∀ n, 0 ≤ n < 2 ^ 53 → Js.toDouble n = Num n) as Hexact.
  { intros n Hn. unfold Js.toDouble.
    rewrite Z.abs_eq by lia. by rewrite (proj2 (Z.ltb_lt _ _)) by lia. }
  assert (0 ≤ (p - 1) * l) as Hnn by nia.
  assert (skipOf (Num p) (Num l) = Num ((p - 1) * l)) as Hskip.
  { unfold skipOf, Js.sub1, Js.mul. rewrite Hexact by nia. apply Hexact. nia. }
  assert (skipOf (Num (p + 1)) (Num l) = Num (p * l)) as Hskip'.
  { unfold skipOf, Js.sub1, Js.mul. rewrite Hexact by nia.
    replace (p + 1 - 1) with p by lia. apply Hexact. nia. }
  rewrite Hskip in Hk1 |- *. rewrite Hskip' in Hk2.
  assert (l1 = l) as ->.
  { unfold numberOr in Hl1'. destruct (l =? 0) eqn:E; [lia|]. by injection Hl1'. }
  assert (l2 = l) as ->.
  { unfold numberOr in Hl2'. destruct (l =? 0) eqn:E; [lia|]. by injection Hl2'. }
  assert (k1 = (p - 1) * l) as ->.
  { unfold numberOr in Hk1. destruct (_ =? 0) eqn:E; injection Hk1 as <-; lia. }
  assert (k2 = p * l) as ->.
  { unfold numberOr in Hk2. destruct (_ =? 0) eqn:E; [nia|]. by injection Hk2. }
  set (T := matching caller q s).
  rewrite <- length_zero_iff_nil.
  rewrite !length_fmap, !length_take, !length_drop, !sortByDateTime_length.
  unfold Js.add. rewrite Hexact by lia. simpl. rewrite Z.ltb_lt. lia.
Qed.

(** With one entry per page and the two appointments of the sample store,
    page 1 announces a next page and page 2 holds an entry. *)
Lemma hasNextPage_iff_next_page_holds_an_entry_witness :
  ∃ vs pg vs' pg',
    (getAppointments Sample.early Sample.asRoot
       (mkListQuery None None (Some "1") (Some "1")) Sample.rebooked).1
    = ok 200 None (AppointmentList vs pg)
    ∧ (getAppointments Sample.early Sample.asRoot
         (mkListQuery None None (Some "1") (Some "2")) Sample.rebooked).1
      = ok 200 None (AppointmentList vs' pg')
    ∧ (hasNextPage pg = true ↔ vs' ≠ []).
Proof.
  eexists _, _, _, _. split; [by vm_compute|]. split; [by vm_compute|].
  eapply (hasNextPage_iff_next_page_holds_an_entry Sample.early Sample.asRoot
            (mkListQuery None None (Some "1") (Some "1"))
            (mkListQuery None None (Some "1") (Some "2")) Sample.rebooked 1 1);
    first [done | by vm_compute].
Defined.

(** ** The cancellation flag and the time of day *)

(** X9. The [canBeCancelled] flag a caller reads with an appointment
    foretells the answer of the cancel operation on the same store: when it
    is false, a cancellation at that instant or later is refused with the
    timing error; when it is true, a cancellation at that instant is not
    refused for timing. *)
Theorem shown_flag_foretells_cancellation now caller id s v :
  (getAppointmentById now caller id s).1 = ok 200 None (AppointmentData v) →
  (Appointment.d_canBeCancelled (details v) = false →
   ∀ now', now ≤ now' →
           cancelAppointment now' caller id s
           = (fail 400 "Appointment cannot be cancelled (less than 2 hours away)", s))
  ∧ (Appointment.d_canBeCancelled (details v) = true →
     (cancelAppointment now caller id s).1
     ≠ fail 400 "Appointment cannot be cancelled (less than 2 hours away)").
Proof.
  unfold getAppointmentById. rewrite findOne_byId.
  destruct (appointments s !! id) as [a|] eqn:Ha; [|done].
  destruct (inScope caller a) eqn:Hs; [|done].
  simpl. intros [= <-]. simpl.
  unfold cancelAppointment. rewrite Ha, accessDenied_inScope, Hs. simpl. split.
  - intros Hno now' Hle.
    assert (Appointment.canBeCancelled now' a = false) as ->; [|done].
    unfold Appointment.canBeCancelled in *.
    destruct (Appointment.appointmentDateTime a); [|done].
    rewrite Z.gtb_ltb in Hno |- *. apply Z.ltb_ge in Hno. apply Z.ltb_ge. lia.
  - intros ->. simpl. by destruct (Appointment.save _ _ _ _ _).
Qed.

Lemma shown_flag_foretells_cancellation_witness :
  ∃ v, (getAppointmentById Sample.nineOClock Sample.asP1 12 Sample.oneSoon).1
       = ok 200 None (AppointmentData v)
       ∧ cancelAppointment (Sample.nineOClock + 1) Sample.asP1 12 Sample.oneSoon
         = (fail 400 "Appointment cannot be cancelled (less than 2 hours away)",
            Sample.oneSoon).
Proof.
  exists (view Sample.nineOClock Sample.people 12 Sample.soon).
  split; [by vm_compute|].
  apply (shown_flag_foretells_cancellation Sample.nineOClock Sample.asP1 12%N
           Sample.oneSoon (view Sample.nineOClock Sample.people 12 Sample.soon));
    [by vm_compute|by vm_compute|lia].
Defined.



(** ** Doctors and profiles *)

Lemma findActiveDoctor_Some (us : gmap N User.t) id :
  is_Some (findActiveDoctor us id) ↔
  ∃ u, us !! id = Some u ∧ User.role u = doctor ∧ User.isActive u = true.
Proof.
  unfold findActiveDoctor. destruct (us !! id) as [u|]; split.
  - destruct (bool_decide _ && _) eqn:E; [|by intros [? [=]]].
    apply andb_true_iff in E as [E1%bool_decide_eq_true E2]. eauto.
  - intros (v & [= <-] & Hr & Ha). by rewrite bool_decide_eq_true_2, Ha.
  - by intros [? [=]].
  - by intros (? & [=] & _).
Qed.

(** X11. [getAvailableDoctors] lists exactly the doctors a booking can
    name: an id is in the list when, and only when, it is the id of an
    active user with role doctor, each entry carries that user's name,
    email, phone and specialization, and a creation request that names its
    fields is answered 404 "Doctor not found or inactive" exactly when its
    doctor is not in the list. *)
Theorem available_doctors_are_the_bookable_ones s :
  ∃ ds, getAvailableDoctors s = answer 200 None ds
        ∧ (∀ id, (∃ d, d ∈ ds ∧ ref_id d = id)
                 ↔ is_Some (findActiveDoctor (users s) id))
        ∧ (∀ d, d ∈ ds →
                ∃ u, users s !! ref_id d = Some u
                     ∧ d = mkPopulated (ref_id d) (User.name u) (User.email u)
                             (User.phone u) (User.specialization u))
        ∧ (∀ now oid caller body doctorId date time,
              b_doctorId body = Some doctorId →
              b_date body = Some date →
              truthyString (b_time body) = Some time →
              ((createAppointment now oid caller body s).1
               = fail 404 "Doctor not found or inactive"
               ↔ ¬ ∃ d, d ∈ ds ∧ ref_id d = doctorId)).
Proof.
  eexists. split; [reflexivity|].
  set (keep := λ kv : N * User.t,
                 bool_decide (User.role kv.2 = doctor) && User.isActive kv.2).
  set (project := λ kv : N * User.t,
                    mkPopulated kv.1 (User.name kv.2) (User.email kv.2)
                      (User.phone kv.2) (User.specialization kv.2)).
  assert (∀ d, d ∈ project <$> List.filter keep (map_to_list (users s)) ↔
               ∃ id u, users s !! id = Some u ∧ User.role u = doctor
                       ∧ User.isActive u = true ∧ d = project (id, u)) as Hin.
  { intros d. rewrite list_elem_of_fmap. split.
    - intros ([id u] & -> & Hkv). apply list_elem_of_In, List.filter_In in Hkv.
      destruct Hkv as [Hkv [Hr%bool_decide_eq_true Ha]%andb_true_iff].
      apply list_elem_of_In, elem_of_map_to_list in Hkv. by exists id, u.
    - intros (id & u & Hu & Hr & Ha & ->). exists (id, u). split; [done|].
      apply list_elem_of_In, List.filter_In. split.
      + by apply list_elem_of_In, elem_of_map_to_list.
      + unfold keep. simpl. by rewrite bool_decide_eq_true_2, Ha. }
  assert (∀ id, (∃ d, d ∈ project <$> List.filter keep (map_to_list (users s))
                      ∧ ref_id d = id)
                ↔ is_Some (findActiveDoctor (users s) id)) as Hids.
  { intros id. rewrite findActiveDoctor_Some. split.
    - intros (d & (j & u & Hu & Hr & Ha & ->)%Hin & <-). by exists u.
    - intros (u & Hu & Hr & Ha). exists (project (id, u)). split; [|done].
      apply Hin. by exists id, u. }
  split_and!.
  - exact Hids.
  - intros d (id & u & Hu & _ & _ & ->)%Hin. by exists u.
  - intros now oid caller body doctorId date time Hdoc Hdate Htime.
    rewrite Hids. unfold createAppointment. rewrite Hdoc, Hdate, Htime.
    destruct (findActiveDoctor (users s) doctorId) as [u|] eqn:Hu.
    + split; [|by intros []; eexists].
      destruct date as [d|]; [|done].
      destruct (d <=? now); [done|].
      destruct (Appointment.save _ _ _ _ _) as [[]|]; done.
    + split; [|done]. by intros _ [? [=]].
Qed.

Lemma available_doctors_are_the_bookable_ones_witness :
  ∃ ds, getAvailableDoctors Sample.noBookings = answer 200 None ds
        ∧ ∃ d, d ∈ ds ∧ ref_id d = 1%N.
Proof.
  destruct (available_doctors_are_the_bookable_ones Sample.noBookings)
    as (ds & Hds & Hids & _).
  exists ds. split; [exact Hds|]. apply Hids. by eexists.
Defined.

(** ** Profiles *)

(** X12. A caller who is not an admin can read and change no profile but
    their own: for any other user id, [getUserProfile] and
    [updateUserProfile] answer 403 "Access denied", whether or not a user
    has that id, and the store is left as it was. Without an id in the
    request (the routes give none) both act on the caller's own profile. *)
Theorem profiles_of_others_are_closed_to_non_admins caller s :
  (∀ other,
      callerRole caller ≠ admin →
      other ≠ callerId caller →
      getUserProfile caller (Some other) s = refuse 403 "Access denied"
      ∧ ∀ now body,
          updateUserProfile now caller (Some other) body s
          = (refuse 403 "Access denied", s))
  ∧ (∀ u, users s !! callerId caller = Some u →
          getUserProfile caller None s
          = answer 200 None (User.getProfile (callerId caller) u)
          ∧ getCurrentUser caller s = getUserProfile caller None s).
Proof.
  split.
  - intros other Hrole Hother. unfold getUserProfile, updateUserProfile. simpl.
    rewrite (bool_decide_eq_false_2 (callerRole caller = admin)) by done.
    rewrite (bool_decide_eq_false_2 (callerId caller = other)) by done.
    done.
  - intros u Hu. unfold getUserProfile, getCurrentUser. simpl.
    rewrite (bool_decide_eq_true_2 (callerId caller = callerId caller)) by done.
    rewrite andb_false_r, Hu. done.
Qed.

Lemma profiles_of_others_are_closed_to_non_admins_witness :
  getUserProfile Sample.asP1 (Some 3%N) Sample.noBookings
  = refuse 403 "Access denied"
  ∧ getUserProfile Sample.asP1 (Some 99%N) Sample.noBookings
    = refuse 403 "Access denied".
Proof.
  destruct (profiles_of_others_are_closed_to_non_admins Sample.asP1 Sample.noBookings)
    as [Hclosed _].
  split.
  - by apply (Hclosed 3%N).
  - by apply (Hclosed 99%N).
Defined.

(** X13. A profile update that succeeds changes only the name, the phone
    and the specialization of its target, each to the trimmed value of the
    body and only when the body gives a non-empty one: email, role,
    activation flag, password and creation time of the target, every other
    user and the appointments are as before, and the stored document passes
    the validators. *)
Theorem profile_update_frame now caller param body s :
  r_success (updateUserProfile now caller param body s).1 = true →
  ∃ u u',
    users s !! default (callerId caller) param = Some u
    ∧ users (updateUserProfile now caller param body s).2
        !! default (callerId caller) param = Some u'
    ∧ User.email u' = User.email u
    ∧ User.role u' = User.role u
    ∧ User.isActive u' = User.isActive u
    ∧ User.password u' = User.password u
    ∧ User.createdAt u' = User.createdAt u
    ∧ User.name u'
      = match UserSchema.present (pb_name body) with
        | Some x => Js.trim x
        | None => User.name u
        end
    ∧ User.phone u'
      = match UserSchema.present (pb_phone body) with
        | Some x => Some (Js.trim x)
        | None => User.phone u
        end
    ∧ User.specialization u'
      = match UserSchema.present (pb_specialization body) with
        | Some x => Some (Js.trim x)
        | None => User.specialization u
        end
    ∧ UserSchema.validateLoaded u' = []
    ∧ (∀ j, j ≠ default (callerId caller) param →
            users (updateUserProfile now caller param body s).2 !! j = users s !! j)
    ∧ appointments (updateUserProfile now caller param body s).2 = appointments s.
Proof.
  unfold updateUserProfile.
  destruct (negb _ && negb _); [done|].
  destruct (users s !! default (callerId caller) param) as [u|] eqn:Hu; [|done].
  destruct (UserSchema.validateLoaded _) eqn:Hv; [|done]. intros _. simpl.
  eexists u, _. split; [done|]. split; [apply lookup_insert_eq|].
  set (u1 := setIfGiven _ _ (setIfGiven _ _ (setIfGiven _ _ u))) in *.
  assert (∀ w, (User.email (UserSchema.touch now u w) = User.email w
                ∧ User.role (UserSchema.touch now u w) = User.role w
                ∧ User.isActive (UserSchema.touch now u w) = User.isActive w
                ∧ User.password (UserSchema.touch now u w) = User.password w
                ∧ User.createdAt (UserSchema.touch now u w) = User.createdAt w)
               ∧ User.name (UserSchema.touch now u w) = User.name w
               ∧ User.phone (UserSchema.touch now u w) = User.phone w
               ∧ User.specialization (UserSchema.touch now u w)
                 = User.specialization w) as Htouch.
  { intros w. unfold UserSchema.touch. by destruct (decide _). }
  destruct (Htouch u1) as ((-> & -> & -> & -> & ->) & -> & -> & ->).
  split_and!; try exact Hv; try (by intros j Hj; rewrite lookup_insert_ne);
    try done; subst u1; unfold setIfGiven;
    by destruct (UserSchema.present (pb_name body)),
         (UserSchema.present (pb_phone body)),
         (UserSchema.present (pb_specialization body)).
Qed.

Lemma profile_update_frame_witness :
  ∃ u', users (updateUserProfile Sample.early (mkCaller 7 admin) None
                 (mkProfileBody (Some "  Ann L. ") None None)
                 SampleAccounts.withAnn).2 !! 7%N = Some u'
        ∧ User.name u' = "Ann L."
        ∧ User.role u' = admin.
Proof.
  destruct (profile_update_frame Sample.early (mkCaller 7 admin) None
              (mkProfileBody (Some "  Ann L. ") None None) SampleAccounts.withAnn)
    as (u & u' & Hu & Hu' & _ & Hrole & _ & _ & _ & Hname & _); [by vm_compute|].
  exists u'. split; [exact Hu'|]. split; [exact Hname|].
  rewrite Hrole. revert Hu. by vm_compute; intros [= <-].
Defined.

(** ** Registration, login and passwords *)

Lemma toLowerChar_idemp c : toLowerChar (toLowerChar c) = toLowerChar c.
Proof. by destruct c as [[] [] [] [] [] [] [] []]. Qed.

Lemma toLowerCase_idemp s : toLowerCase (toLowerCase s) = toLowerCase s.
Proof.
  induction s as [|c rest IH]; [done|]. simpl. by rewrite toLowerChar_idemp, IH.
Qed.

(** The value [registerUser] and [loginUser] query with is the email as
    the document stores it. *)
Lemma castEmail_toLowerCase e :
  UserSchema.castEmail (toLowerCase e) = UserSchema.castEmail e.
Proof. unfold UserSchema.castEmail. by rewrite toLowerCase_idemp. Qed.

Lemma findByEmail_Some e (us : gmap N User.t) id u :
  findByEmail e us = Some (id, u) → us !! id = Some u ∧ User.email u = e.
Proof.
  unfold findByEmail. intros [Hin He]%List.find_some. simpl in He.
  apply list_elem_of_In, elem_of_map_to_list in Hin.
  by apply String.eqb_eq in He.
Qed.

Lemma findByEmail_None e (us : gmap N User.t) :
  findByEmail e us = None ↔ ∀ id u, us !! id = Some u → User.email u ≠ e.
Proof.
  unfold findByEmail. split.
  - intros H id u Hu He.
    assert (String.eqb (User.email u) e = false) as Hnone.
    { apply (List.find_none _ _ H (id, u)).
      by apply list_elem_of_In, elem_of_map_to_list. }
    rewrite He, String.eqb_refl in Hnone. done.
  - intros H. destruct (List.find _ _) as [[id u]|] eqn:E; [|done].
    apply List.find_some in E as [Hin He]. simpl in He.
    apply list_elem_of_In, elem_of_map_to_list in Hin.
    apply String.eqb_eq in He. by destruct (H _ _ Hin).
Qed.

(** What a successful registration did. *)
Lemma registerUser_success bc now oid salt body s :
  r_success (registerUser bc now oid salt body s).1 = true →
  ∃ email password role,
    rb_email body = Some email
    ∧ rb_password body = Some password
    ∧ 6 ≤ Js.length password
    ∧ UserSchema.parseRole (roleOrDefault (rb_role body)) = Some role
    ∧ findByEmail (UserSchema.castEmail email) (users s) = None
    ∧ users s !! oid = None
    ∧ validateNewUser body email = []
    ∧ registerUser bc now oid salt body s
      = (answer 201 (Some "User registered successfully")
           (User.getProfile oid
              (User.mk (default String.EmptyString (Js.trim <$> rb_name body))
                 (UserSchema.castEmail email) (bcryptHash bc salt password) role
                 (Js.trim <$> rb_phone body) (Js.trim <$> rb_specialization body)
                 true now now),
            generateToken now oid
              (User.mk (default String.EmptyString (Js.trim <$> rb_name body))
                 (UserSchema.castEmail email) (bcryptHash bc salt password) role
                 (Js.trim <$> rb_phone body) (Js.trim <$> rb_specialization body)
                 true now now)),
         withUsers s
           (<[oid := User.mk (default String.EmptyString (Js.trim <$> rb_name body))
                       (UserSchema.castEmail email) (bcryptHash bc salt password)
                       role (Js.trim <$> rb_phone body)
                       (Js.trim <$> rb_specialization body) true now now]>
              (users s))).
Proof.
  unfold registerUser.
  destruct (rb_email body) as [email|]; [|done].
  destruct (findByEmail (UserSchema.castEmail (toLowerCase email)) (users s));
    [done|].
  destruct (validateNewUser body email) as [|e es] eqn:Hv; [|done].
  destruct (UserSchema.parseRole _) as [role|] eqn:Hrole; [|done].
  simpl.
  destruct (findByEmail (UserSchema.castEmail email) (users s)) eqn:Hfree; [done|].
  destruct (users s !! oid) eqn:Hoid; [done|]. intros _.
  assert (∃ password, rb_password body = Some password ∧ 6 ≤ Js.length password)
    as (password & Hpw & Hlen).
  { unfold validateNewUser in Hv.
    apply app_eq_nil in Hv as [_ Hv]. apply app_eq_nil in Hv as [_ Hv].
    apply app_eq_nil in Hv as [Hv _]. unfold UserSchema.validatePassword in Hv.
    unfold UserSchema.present in Hv.
    destruct (rb_password body) as [p|]; [|done].
    destruct (String.eqb p _); [done|].
    destruct (6 <=? Js.length p) eqn:E; [|done]. exists p. split; [done|lia]. }
  exists email, password, role. rewrite Hpw. by split_and!.
Qed.

(** X14. A registration that succeeds stores, under the new id, an active
    user whose role is the one the body asks for (patient, doctor or
    admin; patient when the body names none), whose email is the
    lowercased and trimmed email of the body and whose password is the hash
    of a password of at least 6 characters; the answer is 201 with the
    profile and a token for that id and role, and no other user is
    touched. *)
Theorem registration_stores_the_requested_account bc now oid salt body s :
  r_success (registerUser bc now oid salt body s).1 = true →
  ∃ email password u,
    rb_email body = Some email
    ∧ rb_password body = Some password
    ∧ 6 ≤ Js.length password
    ∧ users s !! oid = None
    ∧ users (registerUser bc now oid salt body s).2 !! oid = Some u
    ∧ UserSchema.parseRole (roleOrDefault (rb_role body)) = Some (User.role u)
    ∧ User.email u = UserSchema.castEmail email
    ∧ User.password u = bcryptHash bc salt password
    ∧ User.isActive u = true
    ∧ r_code (registerUser bc now oid salt body s).1 = 201
    ∧ r_data (registerUser bc now oid salt body s).1
      = Some (User.getProfile oid u, generateToken now oid u)
    ∧ (∀ j, j ≠ oid →
            users (registerUser bc now oid salt body s).2 !! j = users s !! j)
    ∧ appointments (registerUser bc now oid salt body s).2 = appointments s.
Proof.
  intros (email & password & role & He & Hp & Hlen & Hrole & _ & Hoid & _ & ->)
    %registerUser_success.
  eexists email, password, _. simpl.
  split_and!.
  5: apply lookup_insert_eq.
  all: try done.
  intros j Hj. by rewrite lookup_insert_ne.
Qed.

(** Ann asks for the role admin and gets it. *)
Lemma registration_stores_the_requested_account_witness :
  ∃ u, users SampleAccounts.withAnn !! 7%N = Some u
       ∧ User.role u = admin
       ∧ User.email u = "ann.lee@mail.com".
Proof.
  destruct (registration_stores_the_requested_account toyBcrypt Sample.early 7%N
              "salt" SampleAccounts.ann Sample.noBookings)
    as (email & password & u & He & _ & _ & _ & Hu & Hrole & Hemail & _);
    [by vm_compute|].
  exists u. split; [exact Hu|].
  injection He as <-. split.
  - revert Hrole. vm_compute. by intros [= <-].
  - rewrite Hemail. by vm_compute.
Defined.

(** X15. Registration keeps the emails of the store distinct: the store
    after [registerUser] has no two users with the same email when the
    store before had none, and a body whose email, lowercased and trimmed,
    is the email of a stored user is refused with 400 "User with this
    email already exists" and changes nothing. *)
Theorem registration_keeps_emails_unique bc now oid salt body s :
  (uniqueEmails (users s) →
   uniqueEmails (users (registerUser bc now oid salt body s).2))
  ∧ (∀ email id u,
        rb_email body = Some email →
        users s !! id = Some u →
        User.email u = UserSchema.castEmail email →
        registerUser bc now oid salt body s
        = (refuse 400 "User with this email already exists", s)).
Proof.
  split.
  - intros Huniq.
    destruct (r_success (registerUser bc now oid salt body s).1) eqn:Hok.
    + apply registerUser_success in Hok
        as (email & password & role & _ & _ & _ & _ & Hfree & Hoid & _ & ->).
      simpl. rewrite findByEmail_None in Hfree.
      intros i j u v Hi Hj Heq.
      destruct (decide (i = oid)) as [->|Hio], (decide (j = oid)) as [->|Hjo];
        [done|..].
      * rewrite lookup_insert_eq in Hi. rewrite lookup_insert_ne in Hj by done.
        injection Hi as <-. simpl in Heq. by destruct (Hfree _ _ Hj).
      * rewrite lookup_insert_eq in Hj. rewrite lookup_insert_ne in Hi by done.
        injection Hj as <-. simpl in Heq. by destruct (Hfree _ _ Hi).
      * rewrite lookup_insert_ne in Hi, Hj by done. by apply (Huniq i j u v).
    + assert ((registerUser bc now oid salt body s).2 = s) as ->; [|done].
      revert Hok. unfold registerUser.
      destruct (rb_email body) as [email|]; [|done].
      destruct (findByEmail (UserSchema.castEmail (toLowerCase email)) (users s));
        [done|].
      destruct (validateNewUser body email); [|done].
      destruct (UserSchema.parseRole _); [|done]. simpl.
      destruct (findByEmail _ (users s)); [done|].
      by destruct (users s !! oid).
  - intros email id u He Hu Hemail. unfold registerUser. rewrite He.
    rewrite castEmail_toLowerCase.
    destruct (findByEmail (UserSchema.castEmail email) (users s)) eqn:E; [done|].
    rewrite findByEmail_None in E. by destruct (E _ _ Hu).
Qed.

(** Ann cannot register twice, whatever the letter case of the email. *)
Lemma registration_keeps_emails_unique_witness :
  registerUser toyBcrypt Sample.early 8 "salt" SampleAccounts.ann SampleAccounts.withAnn
  = (refuse 400 "User with this email already exists", SampleAccounts.withAnn).
Proof.
  apply (proj2 (registration_keeps_emails_unique toyBcrypt Sample.early 8%N "salt"
                  SampleAccounts.ann SampleAccounts.withAnn)
           "Ann.Lee@Mail.Com" 7%N SampleAccounts.annStored); by vm_compute.
Defined.


Lemma present_Some v x : UserSchema.present v = Some x ↔ v = Some x ∧ x ≠ String.EmptyString.
Proof.
  unfold UserSchema.present. destruct v as [s|]; [|by split; [|intros []]].
  destruct (String.eqb s String.EmptyString) eqn:E.
  - apply String.eqb_eq in E. split; [done|]. intros [[= ->] ?]. done.
  - apply String.eqb_neq in E. split; [by intros [= ->]|by intros [[= ->] _]].
Qed.

(** X16. Register, then log in: after a successful registration, a login
    with the same password and an email that is, lowercased and trimmed,
    the stored email (the registered email in any letter case) is answered
    200 with the profile of the new user and a token for its id, provided
    [bcrypt.compare] accepts the data a hash was made of. *)
Theorem register_then_login bc now now' oid salt body s login email e :
  bcryptSound bc →
  r_success (registerUser bc now oid salt body s).1 = true →
  rb_email body = Some email →
  lb_email login = Some e →
  UserSchema.castEmail e = UserSchema.castEmail email →
  lb_password login = rb_password body →
  ∃ u, users (registerUser bc now oid salt body s).2 !! oid = Some u
       ∧ loginUser bc now' login (registerUser bc now oid salt body s).2
         = answer 200 (Some "Login successful")
             (User.getProfile oid u, generateToken now' oid u).
Proof.
  intros Hsound
    (email' & password & role & He' & Hp & Hlen & _ & Hfree & _ & Hv & ->)
    %registerUser_success He Hle Hlower Hpw.
  rewrite He in He'. injection He' as <-. simpl.
  eexists. split; [apply lookup_insert_eq|].
  set (u := User.mk _ _ _ _ _ _ _ _ _).
  assert (UserSchema.castEmail email ≠ String.EmptyString) as Hne.
  { unfold validateNewUser in Hv. apply app_eq_nil in Hv as [_ Hv].
    apply app_eq_nil in Hv as [Hv _]. unfold UserSchema.validateEmail in Hv.
    destruct (UserSchema.present _) eqn:E; [|done].
    by apply present_Some in E as [[= <-] ?]. }
  unfold loginUser.
  assert (UserSchema.present (lb_email login) = Some e) as ->.
  { apply present_Some. split; [done|]. intros ->. by rewrite <- Hlower in Hne. }
  rewrite castEmail_toLowerCase.
  assert (UserSchema.present (lb_password login) = Some password) as ->.
  { apply present_Some. split; [congruence|]. intros ->.
    unfold Js.length in Hlen. simpl in Hlen. lia. }
  rewrite Hlower. simpl.
  destruct (findByEmail _ (<[oid:=u]> (users s))) as [[id v]|] eqn:E.
  - apply findByEmail_Some in E as [Hid Hemail]. simpl in Hid.
    destruct (decide (id = oid)) as [->|Hneq].
    + rewrite lookup_insert_eq in Hid. injection Hid as <-. simpl.
      by rewrite Hsound.
    + rewrite lookup_insert_ne in Hid by done.
      rewrite findByEmail_None in Hfree. by destruct (Hfree _ _ Hid).
  - rewrite findByEmail_None in E.
    by destruct (E oid u (lookup_insert_eq _ _ _)).
Qed.

Lemma toyBcrypt_sound : bcryptSound toyBcrypt.
Proof.
  intros salt data. simpl.
  induction data as [|c data IH]; simpl.
  - by destruct salt.
  - by destruct (ascii_dec c c).
Qed.

(** Ann registers as Ann.Lee@Mail.Com and logs in as ANN.LEE@mail.com. *)
Lemma register_then_login_witness :
  ∃ u, loginUser toyBcrypt Sample.day SampleAccounts.annLogin SampleAccounts.withAnn
       = answer 200 (Some "Login successful")
           (User.getProfile 7 u, generateToken Sample.day 7 u).
Proof.
  destruct (register_then_login toyBcrypt Sample.early Sample.day 7%N "salt"
              SampleAccounts.ann Sample.noBookings SampleAccounts.annLogin
              "Ann.Lee@Mail.Com" "ANN.LEE@mail.com" toyBcrypt_sound)
    as (u & _ & Hlogin); [by vm_compute|done|done|by vm_compute|done|].
  exists u. exact Hlogin.
Defined.

(** X17. A login succeeds only for an active user and the right password:
    when [loginUser] answers with success, the store holds a user whose
    email is the lowercased and trimmed email of the body, who is active and whose
    stored hash [bcrypt.compare] accepts for the password of the body; the
    answer carries that user's profile and a token for that user's id,
    email and role, valid for seven days. *)
Theorem login_needs_an_active_account_and_the_password bc now body s :
  r_success (loginUser bc now body s) = true →
  ∃ email password id u,
    lb_email body = Some email
    ∧ lb_password body = Some password
    ∧ users s !! id = Some u
    ∧ User.email u = UserSchema.castEmail email
    ∧ User.isActive u = true
    ∧ bcryptCompare bc password (User.password u) = true
    ∧ r_data (loginUser bc now body s)
      = Some (User.getProfile id u,
              mkToken id (User.email u) (User.role u) (now / 1000)
                      (now / 1000 + 604800)).
Proof.
  unfold loginUser.
  destruct (UserSchema.present (lb_email body)) as [email|] eqn:He; [|done].
  destruct (UserSchema.present (lb_password body)) as [password|] eqn:Hp; [|done].
  apply present_Some in He as [He _]. apply present_Some in Hp as [Hp _].
  destruct (findByEmail _ _) as [[id u]|] eqn:E; [|done].
  apply findByEmail_Some in E as [Hid Hemail].
  rewrite castEmail_toLowerCase in Hemail.
  destruct (User.isActive u) eqn:Ha; [|done]. simpl.
  destruct (bcryptCompare bc password (User.password u)) eqn:Hc; [|done].
  intros _. by exists email, password, id, u.
Qed.

Lemma login_needs_an_active_account_and_the_password_witness :
  ∃ id u, users SampleAccounts.withAnn !! id = Some u ∧ User.isActive u = true.
Proof.
  destruct (login_needs_an_active_account_and_the_password toyBcrypt Sample.day
              SampleAccounts.annLogin SampleAccounts.withAnn)
    as (_ & _ & id & u & _ & _ & Hu & _ & Ha & _); [by vm_compute|].
  exists id, u. split; [exact Hu|exact Ha].
Defined.

(** X18. [changePassword] changes nothing unless it answers with success,
    which takes the current password ([bcrypt.compare] accepts it for the
    stored hash) and a new one of at least 6 characters; then only the
    caller's password and update time change, the stored password is the
    hash of the new one (when the new one is not, letter for letter, the
    stored hash), and a sound [bcrypt.compare] accepts the new password
    for it. *)
Theorem password_change_needs_the_current_password bc now salt caller body s :
  (r_success (changePassword bc now salt caller body s).1 = false →
   (changePassword bc now salt caller body s).2 = s)
  ∧ (r_success (changePassword bc now salt caller body s).1 = true →
     ∃ current new u u',
       pw_current body = Some current
       ∧ pw_new body = Some new
       ∧ 6 ≤ Js.length new
       ∧ users s !! callerId caller = Some u
       ∧ bcryptCompare bc current (User.password u) = true
       ∧ users (changePassword bc now salt caller body s).2 !! callerId caller
         = Some u'
       ∧ User.name u' = User.name u
       ∧ User.email u' = User.email u
       ∧ User.role u' = User.role u
       ∧ User.isActive u' = User.isActive u
       ∧ User.phone u' = User.phone u
       ∧ User.specialization u' = User.specialization u
       ∧ User.createdAt u' = User.createdAt u
       ∧ (new ≠ User.password u → User.password u' = bcryptHash bc salt new)
       ∧ (bcryptSound bc → new ≠ User.password u →
          bcryptCompare bc new (User.password u') = true)
       ∧ (∀ j, j ≠ callerId caller →
               users (changePassword bc now salt caller body s).2 !! j
               = users s !! j)
       ∧ appointments (changePassword bc now salt caller body s).2
         = appointments s).
Proof.
  unfold changePassword.
  destruct (UserSchema.present (pw_current body)) as [current|] eqn:Hc; [|done].
  destruct (UserSchema.present (pw_new body)) as [new|] eqn:Hn; [|done].
  apply present_Some in Hc as [Hc _]. apply present_Some in Hn as [Hn _].
  destruct (Js.length new <? 6) eqn:Hlen; [done|]. apply Z.ltb_ge in Hlen.
  destruct (users s !! callerId caller) as [u|] eqn:Hu; [|done].
  destruct (bcryptCompare bc current (User.password u)) eqn:Hcmp; [|done]. simpl.
  destruct (_ ++ _); [|done]. simpl. split; [done|]. intros _.
  eexists current, new, u, _.
  split_and!.
  6: apply lookup_insert_eq.
  all: try done.
  all: try (by destruct (decide _)).
  - intros Hsound Hneq. rewrite decide_False by done. simpl. apply Hsound.
  - intros j Hj. by rewrite lookup_insert_ne.
Qed.

Lemma password_change_needs_the_current_password_witness :
  (changePassword toyBcrypt Sample.day "s2" (mkCaller 7 admin)
     (mkPasswordBody (Some "wrongPw") (Some "n3wPassw")) SampleAccounts.withAnn).2
  = SampleAccounts.withAnn
  ∧ ∃ u', users (changePassword toyBcrypt Sample.day "s2" (mkCaller 7 admin)
                   (mkPasswordBody (Some "s3cretPw") (Some "n3wPassw"))
                   SampleAccounts.withAnn).2 !! 7%N = Some u'
          ∧ User.role u' = User.role SampleAccounts.annStored.
Proof.
  split.
  - apply (password_change_needs_the_current_password toyBcrypt Sample.day "s2"
             (mkCaller 7 admin) (mkPasswordBody (Some "wrongPw") (Some "n3wPassw"))
             SampleAccounts.withAnn).
    by vm_compute.
  - destruct (proj2 (password_change_needs_the_current_password toyBcrypt Sample.day
                       "s2" (mkCaller 7 admin)
                       (mkPasswordBody (Some "s3cretPw") (Some "n3wPassw"))
                       SampleAccounts.withAnn))
      as (current & new & u & u' & _ & _ & _ & Hu & _ & Hu' & _ & _ & Hrole & _);
      [by vm_compute|].
    exists u'. split; [exact Hu'|]. rewrite Hrole.
    revert Hu. vm_compute. by intros [= <-].
Defined.

(** ** Behind the middleware *)

(** X19. Behind [authenticateToken] the two protected handlers of the
    account routes never reach their own error answers: for the caller the
    middleware lets through, [getCurrentUser] answers 200 with the profile
    of the stored user (never 404) and [refreshToken] answers 200 with a
    token for that user's id, email and role (never 401). *)
Theorem protected_account_handlers_always_answer now uid s caller :
  authenticateToken uid s = inr caller →
  ∃ u, users s !! uid = Some u
       ∧ User.isActive u = true
       ∧ callerId caller = uid
       ∧ callerRole caller = User.role u
       ∧ getCurrentUser caller s = answer 200 None (User.getProfile uid u)
       ∧ refreshToken now caller s
         = answer 200 (Some "Token refreshed successfully")
             (mkToken uid (User.email u) (User.role u) (now / 1000)
                      (now / 1000 + 604800)).
Proof.
  unfold authenticateToken.
  destruct (users s !! uid) as [u|] eqn:Hu; [|done].
  destruct (User.isActive u) eqn:Ha; [|done]. simpl. intros [= <-].
  exists u. unfold getCurrentUser, refreshToken. simpl. rewrite Hu, Ha.
  by split_and!.
Qed.

Lemma protected_account_handlers_always_answer_witness :
  ∃ u, users Sample.noBookings !! 2%N = Some u
       ∧ getCurrentUser Sample.asP1 Sample.noBookings
         = answer 200 None (User.getProfile 2 u).
Proof.
  destruct (protected_account_handlers_always_answer Sample.early 2%N
              Sample.noBookings Sample.asP1)
    as (u & Hu & _ & _ & _ & Hme & _); [reflexivity|].
  exists u. split; [exact Hu|exact Hme].
Defined.
